(** * Products API (server.js): a shallow embedding and its properties

    The Express application of [server.js] keeps an array of product
    objects in memory and serves it over a handful of routes.  The
    development below embeds

    - the JavaScript values that travel through the handlers (request
      bodies, stored records, response bodies),
    - the middlewares [authenticate] and [validateProduct],
    - every route handler and the route table in registration order,
    - the 404 fallback and the error-handling middleware,

    and then states and proves the properties of the service.

    Modelling conventions.
    - A JavaScript object is a finite map from property names to values
      ([gmap string value]); a property that is absent and a property
      that holds [undefined] both read as [VUndef].
    - Numbers are idealised as rationals: prices are only copied and
      compared with zero; [page] and [limit] are subtracted and
      multiplied, and the statements about them concern whole numbers.
    - Strings are sequences of characters as the engine holds them;
      [toLowerCase] is the engine's own function, of which two facts are
      used (see [Engine]).
    - [uuidv4()] and [new Date().toISOString()] are inputs of a request
      step: the identifier and the timestamp the environment hands out.
    - [console.log] and [console.error] output is not part of the state. *)

From Stdlib Require Import ZArith QArith Ascii String List Lia Bool.
From stdpp Require Import gmap strings list fin_maps.

Set Warnings "-register-all".

Open Scope string_scope.
Open Scope list_scope.
Open Scope Z_scope.

(** ** JavaScript values *)

Inductive value :=
  | VUndef
  | VNull
  | VBool (b : bool)
  | VNum (q : Q)
  | VStr (s : string)
  | VArr (l : list value)
  | VObj (o : gmap string value).

(** A plain object, as produced by [JSON.parse] or an object literal. *)
Abbreviation object := (gmap string value).

(** [o.k]: reading a property; absent properties read as [undefined]. *)
Definition get (k : string) (o : object) : value :=
  match o !! k with
  | Some v => v
  | None => VUndef
  end.

(** ToBoolean: [undefined], [null], [false], [0] and the empty string are
    falsy, everything else is truthy. *)
Definition truthy (v : value) : bool :=
  match v with
  | VUndef | VNull => false
  | VBool b => b
  | VNum q => negb (Qeq_bool q 0)
  | VStr s => negb (String.eqb s "")
  | VArr _ | VObj _ => true
  end.

(** [a || b] on values. *)
Definition js_or (a b : value) : value := if truthy a then a else b.

(** [typeof v === 'number'] *)
Definition is_number (v : value) : bool :=
  match v with VNum _ => true | _ => false end.

(** [v <= 0] for a value already known to be a number. *)
Definition le_zero (v : value) : bool :=
  match v with VNum q => Qle_bool q 0 | _ => false end.

(** ** Strings *)

Definition lower_ascii (c : ascii) : ascii :=
  let n := nat_of_ascii c in
  if ((65 <=? n) && (n <=? 90))%nat then ascii_of_nat (n + 32) else c.

(** Folding the letters A to Z and nothing else: how Express compares
    the literal segments of a route with a path, and what [toLowerCase]
    does to a text in ASCII. *)
Fixpoint ascii_lower (s : string) : string :=
  match s with
  | EmptyString => EmptyString
  | String c s' => String (lower_ascii c) (ascii_lower s')
  end.

Fixpoint is_ascii (s : string) : bool :=
  match s with
  | EmptyString => true
  | String c s' => (nat_of_ascii c <? 128)%nat && is_ascii s'
  end.

(** The engine's [String.prototype.toLowerCase].  It folds the letters of
    every script; the development relies on two facts only: on a text in
    ASCII it folds the letters A to Z, and it maps no text but the empty
    one to the empty text. *)
Class Engine := {
  toLowerCase : string -> string;
  toLowerCase_ascii : forall s, is_ascii s = true -> toLowerCase s = ascii_lower s;
  toLowerCase_empty : forall s, toLowerCase s = "" -> s = ""
}.

(** The engine that folds the letters A to Z only.  The concrete requests
    below use texts in ASCII, on which every engine agrees with it. *)
Definition ascii_engine : Engine.
Proof.
  refine {| toLowerCase := ascii_lower |}.
  - reflexivity.
  - intros [|c s]; [reflexivity | discriminate].
Defined.

(** [s.includes(t)]: [t] occurs in [s] at some position. *)
Fixpoint includes (s t : string) : bool :=
  String.prefix t s ||
  match s with
  | EmptyString => false
  | String _ s' => includes s' t
  end.

(** ** Failures

    An error object as the error-handling middleware reads it: its
    [message] and its optional [statusCode]. *)

Record error := { message : string; statusCode : option Z }.

(** Modelled from the spec: the module [./errors] that declares the
    classes [ValidationError] and [NotFoundError] is not among the
    sources; the specification fixes their declared codes (400 and 404). *)
Definition ValidationError (msg : string) : error :=
  {| message := msg; statusCode := Some 400 |}.

(** Modelled from the spec: see [ValidationError]. *)
Definition NotFoundError (msg : string) : error :=
  {| message := msg; statusCode := Some 404 |}.

(** The engine's own [TypeError]; it declares no status code. *)
Definition TypeError (msg : string) : error :=
  {| message := msg; statusCode := None |}.

(** Evaluation of an expression that may throw. *)
Inductive result (A : Type) :=
  | Ok (a : A)
  | Throw (e : error).
Arguments Ok {A} a.
Arguments Throw {A} e.

#[global] Instance result_ret : MRet result := fun A a => Ok a.

#[global] Instance result_bind : MBind result := fun A B k c =>
  match c with
  | Ok a => k a
  | Throw e => Throw e
  end.

(** [l.filter(f)] for a callback that may throw: the elements are
    visited in order and the first exception aborts the scan. *)
Fixpoint filterM {A} (f : A -> result bool) (l : list A) : result (list A) :=
  match l with
  | [] => Ok []
  | x :: l' =>
      b ← f x;
      r ← filterM f l';
      mret (if (b : bool) then x :: r else r)
  end.

(** [l.findIndex(f)], with [None] for JavaScript's [-1]. *)
Fixpoint findIndex {A} (f : A -> bool) (l : list A) : option nat :=
  match l with
  | [] => None
  | x :: l' => if f x then Some 0%nat else S <$> findIndex f l'
  end.

(** [l.slice(start, end)]: a negative bound counts from the end of the
    array, and both bounds are clamped to the array. *)
Definition rel_index (len k : Z) : Z :=
  if k <? 0 then Z.max (len + k) 0 else Z.min k len.

(** ToIntegerOrInfinity, which [slice] applies to its bounds: the
    fraction of a number is cut off. *)
Definition trunc (q : Q) : Z := Z.quot (Qnum q) (Z.pos (Qden q)).

Definition slice {A} (l : list A) (start stop : Z) : list A :=
  let len := Z.of_nat (length l) in
  let from := rel_index len start in
  let to := rel_index len stop in
  take (Z.to_nat (to - from)) (drop (Z.to_nat from) l).

(** [{...a, ...b}]: the properties of [b] win over those of [a]. *)
Definition spread (a b : object) : object := b ∪ a.

(** [a === b] between primitive values; an object or an array is only
    ever equal to itself, and the program compares against route
    parameters, which are strings. *)
Definition strict_eq (a b : value) : bool :=
  match a, b with
  | VUndef, VUndef => true
  | VNull, VNull => true
  | VBool x, VBool y => Bool.eqb x y
  | VNum x, VNum y => Qeq_bool x y
  | VStr x, VStr y => String.eqb x y
  | _, _ => false
  end.

Definition num (z : Z) : value := VNum (inject_Z z).

(** ** Requests and responses *)

(** The request methods of the model.  HEAD and OPTIONS, which Express
    answers on its own for a registered path, are left out. *)
Inductive method := GET | POST | PUT | DELETE | PATCH.

Definition method_eqb (a b : method) : bool :=
  match a, b with
  | GET, GET | POST, POST | PUT, PUT | DELETE, DELETE | PATCH, PATCH => true
  | _, _ => false
  end.

(** A [page] or [limit] parameter of the query string, which reaches
    the handler as text: the number the text is coerced to when the
    handler computes with it ([page - 1], [page * limit]), and what
    [parseInt] makes of the same text, which the response echoes.  The
    two differ for a text such as "1e1" or "1.5". *)
Record number_param := { coerced : Q; parsed : value }.

(** A parameter written as a plain integer, and the defaults [1] and
    [10] of the handler, which are numbers already. *)
Definition int_param (z : Z) : number_param :=
  {| coerced := inject_Z z; parsed := num z |}.

(** The query string of a request, as far as the handlers read it:
    [category] and [q] as text, [page] and [limit] as above. *)
Record query := {
  query_category : option string;
  query_page : option number_param;
  query_limit : option number_param;
  query_q : option string
}.

(** A request: [path] lists the segments of a URL path that is free of
    percent escapes (Express decodes an escaped segment before it hands
    it to a handler, and answers itself when it cannot), [headers] has
    lower-case names as Node delivers them, [body] is the object that
    [express.json()] parsed. *)
Record request := {
  req_method : method;
  path : list string;
  headers : gmap string string;
  req_query : query;
  body : object
}.

(** What a response carries: the text given to [res.send], the value
    given to [res.json] (before it is serialised), or nothing. *)
Inductive payload :=
  | Text (s : string)
  | Json (v : value)
  | NoBody.

Record response := { status : Z; content : payload }.

(** How a middleware chain ends: a response was sent, or a failure was
    passed on ([next(err)], or an exception Express catches). *)
Inductive reply :=
  | Respond (r : response)
  | Fail (e : error).

Definition of_result (c : result response) : reply :=
  match c with
  | Ok r => Respond r
  | Throw e => Fail e
  end.

(** The in-memory database: the array [products]. *)
Abbreviation store := (list (gmap string value)).

(** The three records the array starts with. *)
Definition product (id : value) (name description : value) (price : value)
    (category : value) (inStock : value) : object :=
  <["id" := id]> (<["name" := name]> (<["description" := description]>
  (<["price" := price]> (<["category" := category]>
  (<["inStock" := inStock]> ∅))))).

Definition products0 (id1 id2 id3 : string) : store :=
  [ product (VStr id1) (VStr "Laptop") (VStr "High performance laptop")
      (VNum (99999 # 100)) (VStr "Electronics") (VBool true);
    product (VStr id2) (VStr "Smartphone") (VStr "Latest model smartphone")
      (VNum (69999 # 100)) (VStr "Electronics") (VBool true);
    product (VStr id3) (VStr "Desk Chair") (VStr "Ergonomic office chair")
      (VNum (19999 # 100)) (VStr "Furniture") (VBool false) ].

(** ** Middlewares *)

(** A middleware either lets the request through ([None], the call
    [next()]) or ends the chain. *)
Definition middleware := request -> option reply.

(** [logger] writes a line to the console and always calls [next()]. *)
Definition logger : middleware := fun _ => None.

(** [authenticate]: the header [x-api-key] must be present, non-empty and
    equal to [process.env.API_KEY]; otherwise the middleware answers 401
    itself. *)
Definition authenticate (API_KEY : option string) : middleware := fun req =>
  let apiKey := headers req !! "x-api-key" in
  let rejected :=
    match apiKey with
    | None => true
    | Some k => String.eqb k "" || negb (bool_decide (API_KEY = Some k))
    end in
  if rejected
  then Some (Respond {| status := 401;
                        content := Json (VObj {[ "message" := VStr "Unauthorized" ]}) |})
  else None.

(** [validateProduct] *)
Definition validateProduct : middleware := fun req =>
  if negb (truthy (get "name" (body req)))
     || negb (truthy (get "price" (body req)))
     || negb (truthy (get "category" (body req)))
  then Some (Fail (ValidationError "Name, price, and category are required"))
  else if negb (is_number (get "price" (body req))) || le_zero (get "price" (body req))
  then Some (Fail (ValidationError "Price must be a positive number"))
  else None.

(** ** Route handlers

    A handler receives the route parameters, the identifier [uuidv4()]
    would return, the request and the array, and yields its reply and
    the array it leaves behind.  The handlers, and all that is built on
    them, are written for an arbitrary engine. *)

Section Server.
Context {engine : Engine}.

(** [e.toLowerCase()] for an expression [e] of value [v]: defined on
    strings only; reading the method off [undefined] or [null] throws,
    and on any other value the property is [undefined], so the call
    throws as well, naming the expression. *)
Definition call_toLowerCase (e : string) (v : value) : result string :=
  match v with
  | VStr s => Ok (toLowerCase s)
  | VUndef =>
      Throw (TypeError "Cannot read properties of undefined (reading 'toLowerCase')")
  | VNull =>
      Throw (TypeError "Cannot read properties of null (reading 'toLowerCase')")
  | _ => Throw (TypeError (e ++ ".toLowerCase is not a function")%string)
  end.

Definition handler := gmap string string -> string -> request -> store -> reply * store.

(** [req.params.k] *)
Definition param (k : string) (ps : gmap string string) : value :=
  match ps !! k with
  | Some s => VStr s
  | None => VUndef
  end.

Definition json (code : Z) (v : value) : response :=
  {| status := code; content := Json v |}.

(** GET / *)
Definition root : handler := fun _ _ _ products =>
  (Respond {| status := 200; content := Text "Welcome to the Products API" |}, products).

(** The callback of the category filter. *)
Definition category_is (category : string) (p : object) : result bool :=
  c ← call_toLowerCase "p.category" (get "category" p);
  mret (String.eqb c (toLowerCase category)).

(** GET /api/products *)
Definition listProducts : handler := fun _ _ req products =>
  let page := default (int_param 1) (query_page (req_query req)) in
  let limit := default (int_param 10) (query_limit (req_query req)) in
  let filteredProducts :=
    match query_category (req_query req) with
    | Some category =>
        if String.eqb category "" then mret products
        else filterM (category_is category) products
    | None => mret products
    end in
  (of_result (
     filteredProducts ← filteredProducts;
     let startIndex := ((coerced page - 1) * coerced limit)%Q in
     let endIndex := (coerced page * coerced limit)%Q in
     let paginatedProducts :=
       slice filteredProducts (trunc startIndex) (trunc endIndex) in
     mret (json 200 (VObj (
       <["total" := num (Z.of_nat (length filteredProducts))]>
       (<["page" := parsed page]>
       (<["limit" := parsed limit]>
       (<["products" := VArr (VObj <$> paginatedProducts)]> ∅))))))),
   products).

(** The callback of the search filter; [||] evaluates its right operand
    only when the left one is false. *)
Definition matches (q : string) (p : object) : result bool :=
  name ← call_toLowerCase "p.name" (get "name" p);
  if includes name (toLowerCase q) then mret true
  else
    description ← call_toLowerCase "p.description" (get "description" p);
    mret (includes description (toLowerCase q)).

(** GET /api/products/search *)
Definition search : handler := fun _ _ req products =>
  match query_q (req_query req) with
  | None => (Fail (ValidationError "Search query is required"), products)
  | Some q =>
      if String.eqb q "" then (Fail (ValidationError "Search query is required"), products)
      else
        (of_result (
           searchResults ← filterM (matches q) products;
           mret (json 200 (VArr (VObj <$> searchResults)))),
         products)
  end.

(** [stats[k]++] on a counter that holds a number. *)
Definition incr (v : value) : value :=
  match v with
  | VNum q => VNum (q + 1)
  | _ => v
  end.

(** GET /api/products/stats.  The handler is modelled for categories that
    are text and name no inherited property of a JavaScript object; a
    record outside that domain is left out of the count here. *)
Definition count_category (stats : object) (p : object) : object :=
  match get "category" p with
  | VStr c =>
      let stats1 := if truthy (get c stats) then stats else <[c := num 0]> stats in
      <[c := incr (get c stats1)]> stats1
  | _ => stats
  end.

Definition getStats : handler := fun _ _ _ products =>
  (Respond (json 200 (VObj (fold_left count_category products ∅))), products).

(** The callback [p => p.id === req.params.id]. *)
Definition has_id (ps : gmap string string) (p : object) : bool :=
  strict_eq (get "id" p) (param "id" ps).

(** GET /api/products/:id *)
Definition getById : handler := fun ps _ _ products =>
  match List.find (has_id ps) products with
  | None => (Fail (NotFoundError "Product not found"), products)
  | Some p => (Respond (json 200 (VObj p)), products)
  end.

(** POST /api/products *)
Definition create : handler := fun _ uuid req products =>
  let p :=
    product (VStr uuid) (get "name" (body req)) (get "description" (body req))
      (get "price" (body req)) (get "category" (body req))
      (js_or (get "inStock" (body req)) (VBool true)) in
  (Respond (json 201 (VObj p)), products ++ [p]).

(** PUT /api/products/:id *)
Definition update : handler := fun ps _ req products =>
  match findIndex (has_id ps) products with
  | None => (Fail (NotFoundError "Product not found"), products)
  | Some index =>
      let merged := spread (default ∅ (products !! index)) (body req) in
      (Respond (json 200 (VObj merged)), <[index := merged]> products)
  end.

(** DELETE /api/products/:id; [splice(index, 1)] removes one element. *)
Definition remove : handler := fun ps _ _ products =>
  match findIndex (has_id ps) products with
  | None => (Fail (NotFoundError "Product not found"), products)
  | Some index => (Respond {| status := 204; content := NoBody |}, delete index products)
  end.

(** ** Error handling middleware *)

Definition errorHandler (now : string) (err : error) : response :=
  let statusCode :=
    match statusCode err with
    | Some c => if c =? 0 then 500 else c
    | None => 500
    end in
  let message :=
    if String.eqb (message err) "" then "Internal Server Error" else message err in
  json statusCode (VObj {[ "error" := VObj (
    <["message" := VStr message]>
    (<["status" := num statusCode]>
    (<["timestamp" := VStr now]> ∅))) ]}).

(** ** Routing *)

Inductive segment :=
  | Lit (s : string)
  | Param (name : string).

Record route := {
  route_method : method;
  route_path : list segment;
  route_chain : list middleware;
  route_handler : handler
}.

(** Matching a path against a route pattern.  Express compares literal
    segments without regard to the case of the letters A to Z; a
    parameter takes any non-empty segment. *)
Fixpoint match_path (pat : list segment) (p : list string) : option (gmap string string) :=
  match pat, p with
  | [], [] => Some ∅
  | Lit s :: pat', x :: p' =>
      if String.eqb (ascii_lower x) (ascii_lower s) then match_path pat' p' else None
  | Param name :: pat', x :: p' =>
      if String.eqb x "" then None else <[name := x]> <$> match_path pat' p'
  | _, _ => None
  end.

(** The routes, in registration order. *)
Definition route_root : route :=
  {| route_method := GET; route_path := [];
     route_chain := []; route_handler := root |}.

Definition route_list : route :=
  {| route_method := GET; route_path := [Lit "api"; Lit "products"];
     route_chain := []; route_handler := listProducts |}.

Definition route_search : route :=
  {| route_method := GET; route_path := [Lit "api"; Lit "products"; Lit "search"];
     route_chain := []; route_handler := search |}.

Definition route_stats : route :=
  {| route_method := GET; route_path := [Lit "api"; Lit "products"; Lit "stats"];
     route_chain := []; route_handler := getStats |}.

Definition route_get : route :=
  {| route_method := GET; route_path := [Lit "api"; Lit "products"; Param "id"];
     route_chain := []; route_handler := getById |}.

Definition route_create (API_KEY : option string) : route :=
  {| route_method := POST; route_path := [Lit "api"; Lit "products"];
     route_chain := [authenticate API_KEY; validateProduct];
     route_handler := create |}.

Definition route_update (API_KEY : option string) : route :=
  {| route_method := PUT; route_path := [Lit "api"; Lit "products"; Param "id"];
     route_chain := [authenticate API_KEY; validateProduct];
     route_handler := update |}.

Definition route_delete (API_KEY : option string) : route :=
  {| route_method := DELETE; route_path := [Lit "api"; Lit "products"; Param "id"];
     route_chain := [authenticate API_KEY];
     route_handler := remove |}.

Definition routes (API_KEY : option string) : list route :=
  [ route_root; route_list; route_search; route_stats; route_get;
    route_create API_KEY; route_update API_KEY; route_delete API_KEY ].

(** The first route whose method and path match the request. *)
Fixpoint find_route (rs : list route) (req : request) : option (route * gmap string string) :=
  match rs with
  | [] => None
  | r :: rs' =>
      if method_eqb (route_method r) (req_method req) then
        match match_path (route_path r) (path req) with
        | Some ps => Some (r, ps)
        | None => find_route rs' req
        end
      else find_route rs' req
  end.

(** Running the middlewares of a route, then its handler. *)
Fixpoint run_chain (ms : list middleware) (h : request -> store -> reply * store)
    (req : request) (products : store) : reply * store :=
  match ms with
  | [] => h req products
  | m :: ms' =>
      match m req with
      | Some r => (r, products)
      | None => run_chain ms' h req products
      end
  end.

(** One request against the application: the matching route runs, an
    unmatched request falls to the 404 handler, and every failure ends
    in the error-handling middleware. *)
Definition handle (API_KEY : option string) (uuid now : string)
    (req : request) (products : store) : response * store :=
  let '(r, products') :=
    run_chain [logger]
      (fun req products =>
         match find_route (routes API_KEY) req with
         | Some (rt, ps) =>
             run_chain (route_chain rt) (route_handler rt ps uuid) req products
         | None => (Fail (NotFoundError "Endpoint not found"), products)
         end)
      req products in
  match r with
  | Respond res => (res, products')
  | Fail err => (errorHandler now err, products')
  end.

(** A session: requests handled one after the other, each with the
    identifier and the timestamp the environment would hand out. *)
Record step := { step_uuid : string; step_now : string; step_req : request }.

Definition run (API_KEY : option string) (steps : list step) (products : store) : store :=
  fold_left (fun st s => snd (handle API_KEY (step_uuid s) (step_now s) (step_req s) st))
    steps products.

(** ** Vocabulary of the statements *)

(** The request is dispatched to route [rt] with parameters [ps]. *)
Definition routed (API_KEY : option string) (req : request) (rt : route)
    (ps : gmap string string) : Prop :=
  find_route (routes API_KEY) req = Some (rt, ps).

(** The request carries the configured secret. *)
Definition authorized (API_KEY : option string) (req : request) : Prop :=
  exists k, headers req !! "x-api-key" = Some k /\ k <> "" /\ API_KEY = Some k.

(** The identifiers of the stored records, in store order. *)
Definition ids (products : store) : list value := get "id" <$> products.

(** The envelope of the error-handling middleware. *)
Definition envelope (msg : string) (code : Z) (now : string) : value :=
  VObj {[ "error" := VObj (
    <["message" := VStr msg]>
    (<["status" := num code]>
    (<["timestamp" := VStr now]> ∅))) ]}.

(** The body of the 401 answer of [authenticate]. *)
Definition unauthorized : response :=
  json 401 (VObj {[ "message" := VStr "Unauthorized" ]}).

(** A body the validator must refuse: a required field is missing, or
    the price is not a number, or it is a number that is not positive. *)
Definition invalid_body (b : object) : Prop :=
  b !! "name" = None \/ b !! "price" = None \/ b !! "category" = None \/
  (exists v, b !! "price" = Some v /\ is_number v = false) \/
  (exists q, b !! "price" = Some (VNum q) /\ (q <= 0)%Q).

Definition validation_message (msg : string) : Prop :=
  msg = "Name, price, and category are required" \/
  msg = "Price must be a positive number".

(** Requests used as concrete instances below. *)
Definition no_query : query :=
  {| query_category := None; query_page := None; query_limit := None; query_q := None |}.

Definition with_key (k : string) : gmap string string := {[ "x-api-key" := k ]}.

Definition request_of (m : method) (p : list string) (h : gmap string string)
    (q : query) (b : object) : request :=
  {| req_method := m; path := p; headers := h; req_query := q; body := b |}.

(** The identifiers a session draws from [uuidv4()]. *)
Definition uuids (steps : list step) : list value :=
  (fun s => VStr (step_uuid s)) <$> steps.

(** An update in the session that does not name [id] in its body. *)
Definition keeps_id (s : step) : Prop :=
  req_method (step_req s) = PUT -> body (step_req s) !! "id" = None.

(** How one request may change the list of identifiers: not at all, by
    one new identifier at the end, or by the removal of one position. *)
Definition ids_step (uuid : string) (before after : list value) : Prop :=
  after = before \/ after = before ++ [VStr uuid] \/
  exists i : nat, after = delete i before.

(** *** Listing, as the specification words it *)

(** The record's category equals [c] up to case. *)
Definition category_matches (c : string) (p : object) : bool :=
  match get "category" p with
  | VStr s => String.eqb (toLowerCase s) (toLowerCase c)
  | _ => false
  end.

(** The records a listing is about: those of the given category, all of
    them when none is given. *)
Definition matching (category : option string) (products : store) : store :=
  match category with
  | Some c => List.filter (category_matches c) products
  | None => products
  end.

(** The elements at the positions [i] with [lo <= i < hi], positions
    counted from [from]. *)
Fixpoint positions_from {A} (from lo hi : Z) (l : list A) : list A :=
  match l with
  | [] => []
  | x :: l' =>
      if (lo <=? from) && (from <? hi)
      then x :: positions_from (from + 1) lo hi l'
      else positions_from (from + 1) lo hi l'
  end.

(** The slice [[lo, hi)] of a sequence. *)
Definition interval {A} (l : list A) (lo hi : Z) : list A :=
  positions_from 0 lo hi l.

(** An empty [category] parameter counts as none. *)
Definition given (category : option string) : option string :=
  match category with
  | Some c => if String.eqb c "" then None else Some c
  | None => None
  end.

Definition text_categories (products : store) : Prop :=
  Forall (fun p => exists s, get "category" p = VStr s) products.

(** The elements at the positions [i] with [lo <= i < hi] for bounds
    that need not be whole. *)
Fixpoint positions_between {A} (from : Z) (lo hi : Q) (l : list A) : list A :=
  match l with
  | [] => []
  | x :: l' =>
      if Qle_bool lo (inject_Z from) && negb (Qle_bool hi (inject_Z from))
      then x :: positions_between (from + 1) lo hi l'
      else positions_between (from + 1) lo hi l'
  end.

Definition interval_q {A} (l : list A) (lo hi : Q) : list A :=
  positions_between 0 lo hi l.

(** The parameter, when given, is coerced to the whole number [z]; when
    omitted, [z] is the handler's default [d]. *)
Definition whole (p : option number_param) (d z : Z) : Prop :=
  match p with
  | Some n => coerced n = inject_Z z
  | None => z = d
  end.

(** The body of a listing. *)
Definition listing_of (total : Z) (page limit : value) (items : store) : value :=
  VObj (<["total" := num total]>
       (<["page" := page]>
       (<["limit" := limit]>
       (<["products" := VArr (VObj <$> items)]> ∅)))).

Definition listing (total page limit : Z) (items : store) : value :=
  listing_of total (num page) (num limit) items.

(** A query with [page] and [limit] written as plain integers. *)
Definition list_query (category : option string) (page limit : option Z) : query :=
  {| query_category := category; query_page := int_param <$> page;
     query_limit := int_param <$> limit; query_q := None |}.

(** The page "1.5": coerced to one and a half, echoed as 1. *)
Definition page_one_and_a_half : query :=
  {| query_category := None;
     query_page := Some {| coerced := 3 # 2; parsed := num 1 |};
     query_limit := Some (int_param 1); query_q := None |}.

(** A body that passes [validateProduct]: truthy name and category, and
    a price that is a positive number. *)
Definition valid_body (b : object) : Prop :=
  truthy (get "name" b) = true /\
  truthy (get "category" b) = true /\
  exists q, get "price" b = VNum q /\ (0 < q)%Q.

(** A run of the letter x, which every engine leaves as it is. *)
Fixpoint xs (k : nat) : string :=
  match k with
  | O => ""
  | S k' => String "x" (xs k')
  end.

(** *** Searching, as the specification words it *)

(** [t] occurs in [s]: some text before it, some text after it. *)
Definition occurs (t s : string) : Prop :=
  exists a b : string, s = (a ++ t ++ b)%string.

(** A field that is text and contains [q] up to case. *)
Definition field_includes (v : value) (q : string) : bool :=
  match v with
  | VStr s => includes (toLowerCase s) (toLowerCase q)
  | _ => false
  end.

(** The record's name or description contains [q] up to case. *)
Definition mentions (q : string) (p : object) : bool :=
  field_includes (get "name" p) q || field_includes (get "description" p) q.

Definition text_name (p : object) : Prop := exists n, get "name" p = VStr n.

Definition text_description (p : object) : Prop :=
  exists d, get "description" p = VStr d.

(** A record the search callback can examine for [q] without reading a
    method off a value that has none. *)
Definition scannable (q : string) (p : object) : Prop :=
  exists n, get "name" p = VStr n /\
    (includes (toLowerCase n) (toLowerCase q) = true \/ text_description p).

(** A record without description whose name does not contain [q]. *)
Definition undescribed (q : string) (p : object) : Prop :=
  get "description" p = VUndef /\
  exists n, get "name" p = VStr n /\
            includes (toLowerCase n) (toLowerCase q) = false.

(** A failure raised by the engine: a [TypeError] with its message. *)
Definition engine_error (e : error) : Prop :=
  exists m, e = TypeError m /\ m <> "".

Definition search_query (q : option string) : query :=
  {| query_category := None; query_page := None; query_limit := None; query_q := q |}.

(** *** Concrete instances *)

Definition secret : string := "s3cret".

(** The store at start-up, with the identifiers "1", "2" and "3". *)
Definition seeded : store := products0 "1" "2" "3".

(** A request that carries the secret. *)
Definition authed (m : method) (p : list string) (q : query) (b : object) : request :=
  request_of m p (with_key secret) q b.

Definition price_only : object := {[ "price" := num 50 ]}.

Definition laptop_update : object :=
  <["name" := VStr "Laptop"]> (<["price" := num 50]>
  {[ "category" := VStr "Electronics" ]}).

(** An update body that also names an identifier. *)
Definition laptop_as_2 : object := <["id" := VStr "2"]> laptop_update.

(** A valid body without description. *)
Definition phone_case : object :=
  <["name" := VStr "Phone case"]> (<["price" := num 12]>
  {[ "category" := VStr "Accessories" ]}).

(** A body the validator accepts although its category is a number. *)
Definition mug : object :=
  <["name" := VStr "Mug"]> (<["price" := num 5]> {[ "category" := num 7 ]}).

Definition negative_price : object :=
  <["name" := VStr "Lamp"]> (<["price" := num (-5)]> {[ "category" := VStr "Home" ]}).

Definition out_of_stock : object := <["inStock" := VBool false]> phone_case.

Definition post (b : object) : request := authed POST ["api"; "products"] no_query b.
Definition put (id : string) (b : object) : request :=
  authed PUT ["api"; "products"; id] no_query b.
Definition del (id : string) : request :=
  authed DELETE ["api"; "products"; id] no_query ∅.
Definition get_one (id : string) : request :=
  request_of GET ["api"; "products"; id] ∅ no_query ∅.
Definition get_list (q : query) : request :=
  request_of GET ["api"; "products"] ∅ q ∅.
Definition get_search (q : option string) : request :=
  request_of GET ["api"; "products"; "search"] ∅ (search_query q) ∅.

Definition at_ (uuid now : string) (r : request) : step :=
  {| step_uuid := uuid; step_now := now; step_req := r |}.

(** The store after a product without description was created. *)
Definition with_phone_case : store :=
  run (Some secret) [at_ "4" "t0" (post phone_case)] seeded.

(** The store after an update named another record's identifier. *)
Definition after_id_overwrite : store :=
  run (Some secret) [at_ "4" "t0" (put "1" laptop_as_2)] seeded.

(** The store after a product with a numeric category was created. *)
Definition with_mug : store :=
  run (Some secret) [at_ "4" "t0" (post mug)] seeded.

(** A short session: a creation, an update and a deletion. *)
Definition session : list step :=
  [ at_ "4" "t0" (post phone_case);
    at_ "5" "t1" (put "1" laptop_update);
    at_ "6" "t2" (del "2") ].

(** *** Further vocabulary *)

(** A record as the validator admits it: a truthy name, a truthy
    category and a price that is a positive number. *)
Definition valid_record (p : object) : Prop :=
  truthy (get "name" p) = true /\
  truthy (get "category" p) = true /\
  exists q, get "price" p = VNum q /\ (0 < q)%Q.

(** The [products] array of a listing response. *)
Definition listed (r : response) : list value :=
  match content r with
  | Json (VObj o) =>
      match get "products" o with
      | VArr l => l
      | _ => []
      end
  | _ => []
  end.

(** The record's category is exactly [c], case included. *)
Definition in_category (c : string) (p : object) : bool :=
  match get "category" p with
  | VStr s => String.eqb s c
  | _ => false
  end.

(** The properties every JavaScript object inherits; [stats[k]] reads
    them for such a [k] even when the handler never stored a count. *)
Definition inherited : list string :=
  [ "constructor"; "hasOwnProperty"; "isPrototypeOf"; "propertyIsEnumerable";
    "toLocaleString"; "toString"; "valueOf"; "__proto__";
    "__defineGetter__"; "__defineSetter__"; "__lookupGetter__"; "__lookupSetter__" ].

(** The categories are text and none of them names an inherited
    property. *)
Definition plain_categories (products : store) : Prop :=
  Forall (fun p => exists s, get "category" p = VStr s /\ s ∉ inherited) products.

(** The three messages of the two validator failures and of a lookup
    that finds nothing. *)
Definition required_message : string := "Name, price, and category are required".
Definition positive_message : string := "Price must be a positive number".

(** * Properties *)

(** ** The pipeline *)

(** The logger lets every request through: a request is decided by the
    route table. *)
Lemma handle_routes (key : option string) (uuid now : string) (req : request)
    (products : store) :
  handle key uuid now req products =
    let '(r, products') :=
      match find_route (routes key) req with
      | Some (rt, ps) =>
          run_chain (route_chain rt) (route_handler rt ps uuid) req products
      | None => (Fail (NotFoundError "Endpoint not found"), products)
      end in
    match r with
    | Respond res => (res, products')
    | Fail err => (errorHandler now err, products')
    end.
Proof. reflexivity. Qed.

(** ** Strings and values *)

Lemma eqb_empty_false (s : string) : s <> "" -> String.eqb s "" = false.
Proof. intros H. by apply String.eqb_neq. Qed.

Lemma strict_eq_str (v : value) (s : string) :
  strict_eq v (VStr s) = true <-> v = VStr s.
Proof.
  destruct v; simpl; try (split; [discriminate | congruence]).
  rewrite String.eqb_eq. split; congruence.
Qed.

Lemma has_id_true (ps : gmap string string) (id : string) (p : object) :
  ps !! "id" = Some id -> has_id ps p = true <-> get "id" p = VStr id.
Proof. intros H. unfold has_id, param. rewrite H. apply strict_eq_str. Qed.

Lemma has_id_false (ps : gmap string string) (id : string) (p : object) :
  ps !! "id" = Some id -> has_id ps p = false <-> get "id" p <> VStr id.
Proof.
  intros H. rewrite <- (has_id_true ps id p H).
  destruct (has_id ps p); split; congruence.
Qed.

(** ** Authentication *)

Lemma authenticate_passes (key : option string) (req : request) :
  authorized key req -> authenticate key req = None.
Proof.
  intros (k & Hk & Hne & ->). unfold authenticate. rewrite Hk.
  rewrite (eqb_empty_false k Hne). simpl.
  by rewrite bool_decide_eq_true_2.
Qed.

Lemma authenticate_rejects (key : option string) (req : request) :
  headers req !! "x-api-key" = None \/ headers req !! "x-api-key" <> key ->
  authenticate key req = Some (Respond unauthorized).
Proof.
  intros H. unfold authenticate.
  destruct (headers req !! "x-api-key") as [k|] eqn:Hk; [|done].
  destruct H as [H|H]; [done|].
  rewrite bool_decide_eq_false_2; [|congruence].
  by rewrite orb_true_r.
Qed.

(** ** The error-handling middleware *)

Lemma errorHandler_ValidationError (now msg : string) :
  msg <> "" -> errorHandler now (ValidationError msg) = json 400 (envelope msg 400 now).
Proof. intros H. unfold errorHandler. simpl. by rewrite (eqb_empty_false msg H). Qed.

Lemma errorHandler_NotFoundError (now msg : string) :
  msg <> "" -> errorHandler now (NotFoundError msg) = json 404 (envelope msg 404 now).
Proof. intros H. unfold errorHandler. simpl. by rewrite (eqb_empty_false msg H). Qed.

Lemma unauthorized_not_envelope (now msg : string) (code : Z) :
  content unauthorized <> Json (envelope msg code now).
Proof.
  unfold unauthorized, envelope. simpl. intros H.
  assert (E : forall m m' : gmap string value,
             Json (VObj m) = Json (VObj m') -> m !! "message" = m' !! "message")
    by (by intros m m' [= ->]).
  apply E in H.
  rewrite lookup_singleton_eq, lookup_singleton_ne in H; done.
Qed.

(** ** Validation *)

Lemma validation_message_nonempty (msg : string) : validation_message msg -> msg <> "".
Proof. by intros [-> | ->]. Qed.

Lemma validateProduct_fails_or_passes (req : request) :
  validateProduct req = None \/
  exists msg, validation_message msg /\
              validateProduct req = Some (Fail (ValidationError msg)).
Proof.
  unfold validateProduct, validation_message.
  destruct (_ || _ || _); [right; eauto|].
  destruct (_ || _); [right; eauto | by left].
Qed.

Lemma validateProduct_passes (req : request) :
  validateProduct req = None ->
  truthy (get "name" (body req)) = true /\
  truthy (get "category" (body req)) = true /\
  exists q, get "price" (body req) = VNum q /\ (0 < q)%Q.
Proof.
  unfold validateProduct.
  destruct (truthy (get "name" (body req))); simpl; [|done].
  destruct (truthy (get "price" (body req))); simpl; [|done].
  destruct (truthy (get "category" (body req))); simpl; [|done].
  destruct (get "price" (body req)) as [| | |q| | |] eqn:Hp; simpl; try done.
  destruct (Qle_bool q 0) eqn:Hq; [done|]. intros _.
  repeat split; try done. exists q. split; [done|].
  apply Qnot_le_lt. intros Hle. apply Qle_bool_iff in Hle. congruence.
Qed.

Lemma positive_truthy (q : Q) : (0 < q)%Q -> truthy (VNum q) = true.
Proof.
  intros Hq. simpl. destruct (Qeq_bool q 0) eqn:E; [|done].
  apply Qeq_bool_iff in E. rewrite E in Hq. by apply Qlt_irrefl in Hq.
Qed.

Lemma valid_body_passes (req : request) :
  validateProduct req = None <-> valid_body (body req).
Proof.
  split; [apply validateProduct_passes|].
  intros (Hn & Hc & q & Hq & Hpos). unfold validateProduct.
  rewrite Hn, Hc, Hq, (positive_truthy q Hpos). simpl.
  destruct (Qle_bool q 0) eqn:E; [|done].
  apply Qle_bool_iff in E. by apply Qlt_not_le in Hpos.
Qed.

Lemma validateProduct_rejects (req : request) :
  invalid_body (body req) ->
  exists msg, validation_message msg /\
              validateProduct req = Some (Fail (ValidationError msg)).
Proof.
  intros H.
  destruct (validateProduct_fails_or_passes req) as [Hok | Hbad]; [|done].
  exfalso. apply validateProduct_passes in Hok as (Hn & Hc & q & Hp & Hq).
  unfold get in *.
  destruct H as [H | [H | [H | [(v & H & Hv) | (q' & H & Hq')]]]];
    rewrite H in *; simplify_eq; try done.
  apply (Qlt_not_le _ _ Hq Hq').
Qed.

(** ** Requests the pipeline turns away *)

(** C8: a create, update or delete request whose [x-api-key] header is
    absent or differs from the configured secret is answered with 401 and
    the body [{message: "Unauthorized"}]; that body is not an envelope of
    the error-handling middleware, and the store is left as it was. *)
Theorem unauthenticated_rejected (key : option string) (uuid now : string)
    (req : request) (rt : route) (ps : gmap string string) (products : store) :
  routed key req rt ps ->
  rt = route_create key \/ rt = route_update key \/ rt = route_delete key ->
  headers req !! "x-api-key" = None \/ headers req !! "x-api-key" <> key ->
  handle key uuid now req products =
    ({| status := 401; content := Json (VObj {[ "message" := VStr "Unauthorized" ]}) |},
     products)
  /\ forall msg code t,
       Json (VObj {[ "message" := VStr "Unauthorized" ]}) <> Json (envelope msg code t).
Proof.
  intros Hr Hrt Hk. split.
  - rewrite handle_routes. rewrite Hr.
    destruct Hrt as [-> | [-> | ->]]; simpl;
      by rewrite (authenticate_rejects key req Hk).
  - intros msg code t. apply (unauthorized_not_envelope t msg code).
Qed.

(** C7: an authorized create request whose body lacks [name], [price] or
    [category], or whose price is not a number or not positive (such as
    -5), fails with a [ValidationError] answered as HTTP 400, and the
    store is exactly what it was. *)
Theorem create_invalid_rejected (key : option string) (uuid now : string)
    (req : request) (ps : gmap string string) (products : store) :
  routed key req (route_create key) ps ->
  authorized key req ->
  invalid_body (body req) ->
  exists msg, validation_message msg /\
    handle key uuid now req products =
      (errorHandler now (ValidationError msg), products) /\
    errorHandler now (ValidationError msg) = json 400 (envelope msg 400 now).
Proof.
  intros Hr Ha Hb.
  destruct (validateProduct_rejects req Hb) as (msg & Hm & Hv).
  exists msg. split; [done|]. split.
  - rewrite handle_routes. rewrite Hr. simpl.
    by rewrite (authenticate_passes key req Ha), Hv.
  - apply errorHandler_ValidationError. by apply validation_message_nonempty.
Qed.

(** ** Creation *)

(** C3: an authorized create request that passes validation and omits
    [inStock] stores a product with [inStock = true]; one that supplies
    [inStock: false] stores a product with [inStock = true] as well. *)
Theorem create_inStock_default (key : option string) (uuid now : string)
    (req : request) (ps : gmap string string) (products : store) :
  routed key req (route_create key) ps ->
  authorized key req ->
  validateProduct req = None ->
  body req !! "inStock" = None \/ body req !! "inStock" = Some (VBool false) ->
  exists p,
    handle key uuid now req products = (json 201 (VObj p), products ++ [p]) /\
    get "inStock" p = VBool true /\
    get "id" p = VStr uuid.
Proof.
  intros Hr Ha Hv Hs. eexists. split; [|split].
  - rewrite handle_routes. rewrite Hr. simpl.
    rewrite (authenticate_passes key req Ha), Hv. reflexivity.
  - unfold get at 1, product. simplify_map_eq.
    unfold get. by destruct Hs as [-> | ->].
  - unfold get, product. by simplify_map_eq.
Qed.

(** ** Scanning the array *)

Section Scan.
Context {A : Type} (f : A -> bool).

Lemma findIndex_None (l : list A) :
  findIndex f l = None <-> Forall (fun x => f x = false) l.
Proof.
  induction l as [|x l IH]; simpl.
  - split; [constructor | done].
  - destruct (f x) eqn:Hx.
    + split; [done|]. intros H. apply Forall_cons in H as [H _]. congruence.
    + rewrite fmap_None, IH. split.
      * by constructor.
      * intros H. by apply Forall_cons in H as [_ H].
Qed.

Lemma findIndex_Some (l : list A) (i : nat) :
  findIndex f l = Some i ->
  exists l1 x l2, l = l1 ++ x :: l2 /\ length l1 = i /\
                  Forall (fun y => f y = false) l1 /\ f x = true.
Proof.
  revert i. induction l as [|x l IH]; simpl; intros i; [done|].
  destruct (f x) eqn:Hx.
  - intros [= <-]. exists [], x, l. by repeat split.
  - intros H. apply fmap_Some in H as (j & Hj & ->).
    destruct (IH j Hj) as (l1 & y & l2 & -> & Hlen & Hl1 & Hy).
    exists (x :: l1), y, l2. simpl. repeat split; auto.
Qed.

Lemma findIndex_first (l1 l2 : list A) (x : A) :
  Forall (fun y => f y = false) l1 -> f x = true ->
  findIndex f (l1 ++ x :: l2) = Some (length l1).
Proof.
  intros Hl1 Hx. induction Hl1 as [|y l1 Hy _ IH]; simpl.
  - by rewrite Hx.
  - by rewrite Hy, IH.
Qed.

Lemma find_none (l : list A) :
  Forall (fun x => f x = false) l -> List.find f l = None.
Proof. induction 1 as [|x l Hx _ IH]; simpl; [done|]. by rewrite Hx. Qed.

Lemma find_first (l1 l2 : list A) (x : A) :
  Forall (fun y => f y = false) l1 -> f x = true ->
  List.find f (l1 ++ x :: l2) = Some x.
Proof.
  intros Hl1 Hx. induction Hl1 as [|y l1 Hy _ IH]; simpl.
  - by rewrite Hx.
  - by rewrite Hy.
Qed.
End Scan.

Lemma no_id_Forall (ps : gmap string string) (id : string) (l : store) :
  ps !! "id" = Some id ->
  Forall (fun p => get "id" p <> VStr id) l ->
  Forall (fun p => has_id ps p = false) l.
Proof.
  intros Hps H. eapply Forall_impl; [exact H|].
  intros p. by apply has_id_false.
Qed.

(** The first record that carries a given identifier splits the store. *)
Lemma first_with_id (ps : gmap string string) (id : string) (l : store) :
  ps !! "id" = Some id ->
  Exists (fun p => get "id" p = VStr id) l ->
  exists l1 p l2, l = l1 ++ p :: l2 /\ get "id" p = VStr id /\
                  Forall (fun x => get "id" x <> VStr id) l1.
Proof.
  intros Hps Hex.
  destruct (findIndex (has_id ps) l) as [i|] eqn:Hi.
  - apply findIndex_Some in Hi as (l1 & p & l2 & -> & _ & Hl1 & Hp).
    exists l1, p, l2. repeat split.
    + by apply (has_id_true ps id).
    + eapply Forall_impl; [exact Hl1|]. intros x. by apply has_id_false.
  - exfalso. apply findIndex_None in Hi.
    apply Exists_exists in Hex as (p & Hin & Hp).
    rewrite Forall_forall in Hi. specialize (Hi p Hin).
    apply (has_id_false ps id p Hps) in Hi. done.
Qed.

(** What the three handlers that look a record up do on a store split at
    the first record with the identifier. *)
Lemma getById_found (ps : gmap string string) (id uuid : string) (req : request)
    (l1 l2 : store) (p : object) :
  ps !! "id" = Some id ->
  Forall (fun x => get "id" x <> VStr id) l1 -> get "id" p = VStr id ->
  getById ps uuid req (l1 ++ p :: l2) = (Respond (json 200 (VObj p)), l1 ++ p :: l2).
Proof.
  intros Hps Hl1 Hp. unfold getById.
  rewrite (find_first (has_id ps) l1 l2 p); [done| |].
  - by apply (no_id_Forall ps id).
  - by apply (has_id_true ps id).
Qed.

Lemma getById_missing (ps : gmap string string) (id uuid : string) (req : request)
    (l : store) :
  ps !! "id" = Some id ->
  Forall (fun x => get "id" x <> VStr id) l ->
  getById ps uuid req l = (Fail (NotFoundError "Product not found"), l).
Proof.
  intros Hps Hl. unfold getById.
  rewrite (find_none (has_id ps) l); [done|]. by apply (no_id_Forall ps id).
Qed.

Lemma remove_found (ps : gmap string string) (id uuid : string) (req : request)
    (l1 l2 : store) (p : object) :
  ps !! "id" = Some id ->
  Forall (fun x => get "id" x <> VStr id) l1 -> get "id" p = VStr id ->
  remove ps uuid req (l1 ++ p :: l2) =
    (Respond {| status := 204; content := NoBody |}, l1 ++ l2).
Proof.
  intros Hps Hl1 Hp. unfold remove.
  rewrite (findIndex_first (has_id ps) l1 l2 p).
  - by rewrite delete_middle.
  - by apply (no_id_Forall ps id).
  - by apply (has_id_true ps id).
Qed.

Lemma update_found (ps : gmap string string) (id uuid : string) (req : request)
    (l1 l2 : store) (p : object) :
  ps !! "id" = Some id ->
  Forall (fun x => get "id" x <> VStr id) l1 -> get "id" p = VStr id ->
  update ps uuid req (l1 ++ p :: l2) =
    (Respond (json 200 (VObj (spread p (body req)))),
     l1 ++ spread p (body req) :: l2).
Proof.
  intros Hps Hl1 Hp. unfold update.
  rewrite (findIndex_first (has_id ps) l1 l2 p).
  - rewrite list_lookup_middle by done. simpl.
    rewrite insert_app_r_alt by done.
    by rewrite Nat.sub_diag.
  - by apply (no_id_Forall ps id).
  - by apply (has_id_true ps id).
Qed.

Lemma lookup_missing (ps : gmap string string) (id : string) (l : store) :
  ps !! "id" = Some id ->
  Forall (fun x => get "id" x <> VStr id) l ->
  findIndex (has_id ps) l = None.
Proof. intros Hps Hl. apply findIndex_None. by apply (no_id_Forall ps id). Qed.

(** ** Deletion *)

(** C9, amended: when no record has the identifier, an authorized delete
    fails with [NotFoundError] (HTTP 404) and leaves the store alone;
    otherwise it removes the first record with that identifier, keeps
    the others in their order and answers 204 without a body; a later
    [getById] fails with [NotFoundError] when no other record carries the
    same identifier. *)
Theorem delete_removes (key : option string) (uuid now : string) (req : request)
    (ps : gmap string string) (id : string) (products : store) :
  routed key req (route_delete key) ps ->
  ps !! "id" = Some id ->
  authorized key req ->
  (Forall (fun p => get "id" p <> VStr id) products ->
     handle key uuid now req products =
       (json 404 (envelope "Product not found" 404 now), products))
  /\
  (Exists (fun p => get "id" p = VStr id) products ->
     exists l1 p l2,
       products = l1 ++ p :: l2 /\
       Forall (fun x => get "id" x <> VStr id) l1 /\
       get "id" p = VStr id /\
       handle key uuid now req products =
         ({| status := 204; content := NoBody |}, l1 ++ l2) /\
       (Forall (fun x => get "id" x <> VStr id) (l1 ++ l2) ->
          forall uuid' now' req' ps',
            routed key req' route_get ps' -> ps' !! "id" = Some id ->
            handle key uuid' now' req' (l1 ++ l2) =
              (json 404 (envelope "Product not found" 404 now'), l1 ++ l2))).
Proof.
  intros Hr Hps Ha. split.
  - intros Hno. rewrite handle_routes, Hr. simpl.
    rewrite (authenticate_passes key req Ha). unfold remove.
    by rewrite (lookup_missing ps id products Hps Hno).
  - intros Hex.
    destruct (first_with_id ps id products Hps Hex) as (l1 & p & l2 & -> & Hp & Hl1).
    exists l1, p, l2. split; [done|]. split; [done|]. split; [done|]. split.
    + rewrite handle_routes, Hr. simpl.
      rewrite (authenticate_passes key req Ha).
      by rewrite (remove_found ps id uuid req l1 l2 p Hps Hl1 Hp).
    + intros Hrest uuid' now' req' ps' Hr' Hps'.
      rewrite handle_routes, Hr'. simpl.
      by rewrite (getById_missing ps' id uuid' req' _ Hps' Hrest).
Qed.

(** ** Update *)

(** C1, amended: an authorized PUT for an identifier present in the store
    succeeds only when its body passes [validateProduct]: any other
    body, the one-field body [{price: 50}] among them, is refused with
    400 and changes nothing.  For a body that passes, the first record
    with the identifier becomes the merge: every supplied field
    overwrites the stored value, every other field keeps its value, and
    a later [getById] returns that merged record provided the body
    supplies no [id]. *)
Theorem update_merges (key : option string) (uuid now : string) (req : request)
    (ps : gmap string string) (id : string) (products : store) :
  routed key req (route_update key) ps ->
  ps !! "id" = Some id ->
  authorized key req ->
  Exists (fun p => get "id" p = VStr id) products ->
  (body req = {[ "price" := num 50 ]} ->
     handle key uuid now req products =
       (json 400 (envelope "Name, price, and category are required" 400 now),
        products))
  /\
  (~ valid_body (body req) ->
     exists msg, validation_message msg /\
       handle key uuid now req products =
         (json 400 (envelope msg 400 now), products))
  /\
  (valid_body (body req) ->
     exists l1 old l2 merged,
       products = l1 ++ old :: l2 /\
       Forall (fun x => get "id" x <> VStr id) l1 /\
       get "id" old = VStr id /\
       handle key uuid now req products =
         (json 200 (VObj merged), l1 ++ merged :: l2) /\
       (forall k v, body req !! k = Some v -> merged !! k = Some v) /\
       (forall k, body req !! k = None -> merged !! k = old !! k) /\
       (body req !! "id" = None ->
          forall uuid' now' req' ps',
            routed key req' route_get ps' -> ps' !! "id" = Some id ->
            handle key uuid' now' req' (l1 ++ merged :: l2) =
              (json 200 (VObj merged), l1 ++ merged :: l2))).
Proof.
  intros Hr Hps Ha Hex. split; [|split].
  - intros Hb. rewrite handle_routes. rewrite Hr. simpl.
    rewrite (authenticate_passes key req Ha).
    unfold validateProduct. rewrite Hb. reflexivity.
  - intros Hbad.
    destruct (validateProduct_fails_or_passes req) as [Hok | (msg & Hm & Hv)].
    { by apply valid_body_passes in Hok. }
    exists msg. split; [done|].
    rewrite handle_routes, Hr. simpl.
    rewrite (authenticate_passes key req Ha), Hv.
    rewrite errorHandler_ValidationError; [done|].
    by apply validation_message_nonempty.
  - intros Hv. apply valid_body_passes in Hv.
    destruct (first_with_id ps id products Hps Hex) as (l1 & old & l2 & -> & Hold & Hl1).
    exists l1, old, l2, (spread old (body req)).
    assert (Hk : forall k, body req !! k = None ->
                           spread old (body req) !! k = old !! k).
    { intros k Hnone. unfold spread. by rewrite lookup_union_r. }
    split; [done|]. split; [done|]. split; [done|].
    split; [|split; [|split; [done|]]].
    + rewrite handle_routes, Hr. simpl.
      rewrite (authenticate_passes key req Ha), Hv.
      by rewrite (update_found ps id uuid req l1 l2 old Hps Hl1 Hold).
    + intros k v Hsome. unfold spread. by apply lookup_union_Some_l.
    + intros Hnoid uuid' now' req' ps' Hr' Hps'.
      rewrite handle_routes, Hr'. simpl.
      rewrite (getById_found ps' id uuid' req' l1 l2 _ Hps' Hl1); [done|].
      unfold get in *. by rewrite (Hk "id" Hnoid).
Qed.

(** ** Identifiers *)

Lemma find_route_In (rs : list route) (req : request) (rt : route)
    (ps : gmap string string) :
  find_route rs req = Some (rt, ps) ->
  rt ∈ rs /\ method_eqb (route_method rt) (req_method req) = true.
Proof.
  induction rs as [|r rs IH]; simpl; [done|].
  destruct (method_eqb (route_method r) (req_method req)) eqn:Hm.
  - destruct (match_path (route_path r) (path req)).
    + intros [= <- <-]. split; [left | done].
    + intros H. destruct (IH H). split; [by right | done].
  - intros H. destruct (IH H). split; [by right | done].
Qed.

Lemma run_chain_store (ms : list middleware) (h : request -> store -> reply * store)
    (req : request) (products : store) :
  snd (run_chain ms h req products) = products \/
  snd (run_chain ms h req products) = snd (h req products).
Proof.
  induction ms as [|m ms IH]; simpl; [by right|].
  by destruct (m req); [left|].
Qed.

Lemma handle_store (key : option string) (uuid now : string) (req : request)
    (products : store) :
  snd (handle key uuid now req products) =
    match find_route (routes key) req with
    | Some (rt, ps) =>
        snd (run_chain (route_chain rt) (route_handler rt ps uuid) req products)
    | None => products
    end.
Proof.
  rewrite handle_routes.
  destruct (find_route (routes key) req) as [[rt ps]|]; simpl.
  - by destruct (run_chain _ _ _ _) as [[res|err] st].
  - done.
Qed.

Lemma update_ids (ps : gmap string string) (uuid : string) (req : request)
    (products : store) :
  body req !! "id" = None ->
  ids (snd (update ps uuid req products)) = ids products.
Proof.
  intros Hb. unfold update.
  destruct (findIndex (has_id ps) products) as [i|] eqn:Hi; simpl; [|done].
  apply findIndex_Some in Hi as (l1 & old & l2 & -> & <- & _ & _).
  rewrite list_lookup_middle by done. simpl.
  unfold ids. rewrite list_fmap_insert. apply list_insert_id.
  rewrite list_lookup_fmap, list_lookup_middle by done. simpl.
  unfold get, spread. by rewrite lookup_union_r.
Qed.

Lemma step_ids (key : option string) (uuid now : string) (req : request)
    (products : store) :
  (req_method req = PUT -> body req !! "id" = None) ->
  ids_step uuid (ids products) (ids (snd (handle key uuid now req products))).
Proof.
  intros Hput. rewrite handle_store. unfold ids_step.
  destruct (find_route (routes key) req) as [[rt ps]|] eqn:Hr; [|by left].
  apply find_route_In in Hr as [Hin Hm].
  destruct (run_chain_store (route_chain rt) (route_handler rt ps uuid) req products)
    as [-> | ->]; [by left|].
  unfold routes in Hin.
  repeat (apply elem_of_cons in Hin as [-> | Hin]); simpl.
  - by left.
  - by left.
  - unfold search. destruct (query_q (req_query req)) as [q|]; [|by left].
    destruct (String.eqb q ""); by left.
  - by left.
  - unfold getById. destruct (List.find _ _); by left.
  - right; left. unfold ids. by rewrite fmap_app.
  - left. apply update_ids. apply Hput.
    simpl in Hm. by destruct (req_method req).
  - unfold remove. destruct (findIndex _ _) as [i|]; simpl; [|by left].
    right; right. exists i. unfold ids. apply list_fmap_delete.
  - by apply elem_of_nil in Hin.
Qed.

(** C2, amended: creation and deletion never change the identifier of an
    existing record, and an update leaves every identifier in place when
    its body supplies no [id]; as long as updates supply no [id] and
    [uuidv4()] hands out identifiers that are new and pairwise distinct,
    the identifiers in the store stay pairwise distinct through any
    sequence of requests. *)
Theorem ids_preserved (key : option string) (steps : list step) (products : store) :
  Forall keeps_id steps ->
  (forall s now, s ∈ steps ->
     forall st, ids_step (step_uuid s) (ids st)
                  (ids (snd (handle key (step_uuid s) now (step_req s) st))))
  /\
  (NoDup (ids products ++ uuids steps) -> NoDup (ids (run key steps products))).
Proof.
  intros Hk. split.
  - intros s now Hs st. apply step_ids.
    rewrite Forall_forall in Hk. apply (Hk s Hs).
  - revert products. induction Hk as [|s steps Hs _ IH]; intros products Hnd.
    + simpl in *. by rewrite app_nil_r in Hnd.
    + simpl. apply IH.
      eapply sublist_NoDup; [exact Hnd|].
      destruct (step_ids key (step_uuid s) (step_now s) (step_req s) products Hs)
        as [-> | [-> | [i ->]]]; simpl.
      * apply sublist_app; [done|]. by apply sublist_cons.
      * by rewrite <- app_assoc.
      * apply sublist_app; [apply sublist_delete|]. by apply sublist_cons.
Qed.

(** ** Listing *)

Lemma positions_from_take_drop {A} (l : list A) (from lo hi : Z) :
  positions_from from lo hi l =
    take (Z.to_nat (hi - from) - Z.to_nat (lo - from))%nat
         (drop (Z.to_nat (lo - from)) l).
Proof.
  revert from. induction l as [|x l IH]; intros from; simpl.
  - by rewrite drop_nil, take_nil.
  - destruct ((lo <=? from) && (from <? hi)) eqn:Hin.
    + apply andb_true_iff in Hin as [Hlo Hhi].
      apply Z.leb_le in Hlo. apply Z.ltb_lt in Hhi.
      rewrite IH.
      replace (Z.to_nat (lo - from)) with 0%nat by lia.
      replace (Z.to_nat (lo - (from + 1))) with 0%nat by lia.
      replace (Z.to_nat (hi - from) - 0)%nat
        with (S (Z.to_nat (hi - (from + 1)) - 0)) by lia.
      reflexivity.
    + rewrite IH. apply andb_false_iff in Hin as [Hlo | Hhi].
      * apply Z.leb_gt in Hlo.
        replace (Z.to_nat (lo - from)) with (S (Z.to_nat (lo - (from + 1)))) by lia.
        simpl. f_equal. lia.
      * apply Z.ltb_ge in Hhi.
        replace (Z.to_nat (hi - from) - Z.to_nat (lo - from))%nat with 0%nat by lia.
        replace (Z.to_nat (hi - (from + 1)) - Z.to_nat (lo - (from + 1)))%nat
          with 0%nat by lia.
        reflexivity.
Qed.

(** On bounds that are not negative, [slice] is the interval of
    positions. *)
Lemma slice_interval {A} (l : list A) (lo hi : Z) :
  0 <= lo -> 0 <= hi -> slice l lo hi = interval l lo hi.
Proof.
  intros Hlo Hhi. unfold interval. rewrite positions_from_take_drop.
  unfold slice, rel_index.
  rewrite !Z.sub_0_r.
  destruct (lo <? 0) eqn:E1; [apply Z.ltb_lt in E1; lia|].
  destruct (hi <? 0) eqn:E2; [apply Z.ltb_lt in E2; lia|].
  destruct (decide (Z.of_nat (length l) <= lo)) as [Hge | Hlt].
  - rewrite (Z.min_r lo) by lia.
    rewrite !drop_ge by lia. by rewrite !take_nil.
  - rewrite (Z.min_l lo) by lia.
    destruct (decide (hi <= Z.of_nat (length l))) as [Hh | Hh].
    + rewrite Z.min_l by lia. f_equal. lia.
    + rewrite Z.min_r by lia.
      rewrite !take_ge; [done | |]; rewrite length_drop; lia.
Qed.

Lemma filterM_cons_Ok {A} (f : A -> result bool) (g : A -> bool) (x : A) (l : list A) :
  f x = Ok (g x) -> filterM f l = Ok (List.filter g l) ->
  filterM f (x :: l) = Ok (List.filter g (x :: l)).
Proof. intros Hx Hl. simpl. rewrite Hx, Hl. simpl. by destruct (g x). Qed.

Lemma filter_category (c : string) (products : store) :
  text_categories products ->
  filterM (category_is c) products = Ok (List.filter (category_matches c) products).
Proof.
  induction 1 as [|p l [s Hs] _ IH]; [done|].
  apply filterM_cons_Ok; [|done].
  unfold category_is, category_matches. by rewrite Hs.
Qed.

Lemma trunc_start (p l : Z) : trunc ((inject_Z p - 1) * inject_Z l) = (p - 1) * l.
Proof.
  unfold trunc, Qminus, Qplus, Qopp, Qmult, inject_Z. simpl.
  rewrite Z.quot_1_r. ring.
Qed.

Lemma trunc_stop (p l : Z) : trunc (inject_Z p * inject_Z l) = p * l.
Proof.
  unfold trunc, Qmult, inject_Z. simpl. by rewrite Z.quot_1_r.
Qed.

Lemma whole_coerced (o : option number_param) (d z : Z) :
  whole o d z -> coerced (default (int_param d) o) = inject_Z z.
Proof. destruct o as [n|]; simpl; [done | by intros ->]. Qed.

Lemma listing_of_fields (total : Z) (page limit : value) (items : store) :
  exists o, listing_of total page limit items = VObj o /\
            get "total" o = num total /\
            get "products" o = VArr (VObj <$> items).
Proof.
  eexists. split; [reflexivity|]. unfold get. by simplify_map_eq.
Qed.

(** What [handle] does with a listing whose parameters are whole
    numbers. *)
Lemma handle_list (key : option string) (uuid now : string) (req : request)
    (ps : gmap string string) (products : store) (page limit : Z) :
  routed key req route_list ps ->
  (forall c, given (query_category (req_query req)) = Some c ->
             text_categories products) ->
  whole (query_page (req_query req)) 1 page ->
  whole (query_limit (req_query req)) 10 limit ->
  handle key uuid now req products =
    (json 200 (listing_of
       (Z.of_nat (length (matching (given (query_category (req_query req))) products)))
       (parsed (default (int_param 1) (query_page (req_query req))))
       (parsed (default (int_param 10) (query_limit (req_query req))))
       (slice (matching (given (query_category (req_query req))) products)
          ((page - 1) * limit) (page * limit))),
     products).
Proof.
  intros Hr Ht Hp Hl. rewrite handle_routes, Hr. unfold route_list.
  cbn [route_chain route_handler run_chain]. unfold listProducts.
  rewrite (whole_coerced _ _ _ Hp), (whole_coerced _ _ _ Hl).
  rewrite trunc_start, trunc_stop.
  unfold given in *.
  destruct (query_category (req_query req)) as [c|]; [|done].
  destruct (String.eqb c ""); [done|]. cbn [matching].
  by rewrite (filter_category c products (Ht c eq_refl)).
Qed.

(** C4, amended: for integer-valued [page] and [limit] (1 and 10 when
    omitted) whose slice bounds [(page-1)*limit] and [page*limit] are not
    negative, on a store whose records have text categories when a
    non-empty category is given: the response's [total] is the number of
    records whose category matches the given one case-insensitively (all
    records when none, or an empty one, is given) and [products] is the
    slice [[(page-1)*limit, page*limit)] of that filtered sequence in
    store order; with exactly two Electronics records, category
    "Electronics", page 1 and limit 1 give total 2 and the first of the
    two. *)
Theorem list_paginates (key : option string) (uuid now : string) (req : request)
    (ps : gmap string string) (products : store) (page limit : Z) :
  routed key req route_list ps ->
  (forall c, given (query_category (req_query req)) = Some c ->
             text_categories products) ->
  whole (query_page (req_query req)) 1 page ->
  whole (query_limit (req_query req)) 10 limit ->
  (0 <= (page - 1) * limit -> 0 <= page * limit ->
   exists o,
     handle key uuid now req products = (json 200 (VObj o), products) /\
     get "total" o =
       num (Z.of_nat (length (matching (given (query_category (req_query req)))
                                products))) /\
     get "products" o =
       VArr (VObj <$> interval (matching (given (query_category (req_query req)))
                                  products)
                        ((page - 1) * limit) (page * limit)))
  /\
  (forall a b,
     query_category (req_query req) = Some "Electronics" ->
     page = 1 -> limit = 1 ->
     matching (Some "Electronics") products = [a; b] ->
     exists o,
       handle key uuid now req products = (json 200 (VObj o), products) /\
       get "total" o = num 2 /\
       get "products" o = VArr [VObj a]).
Proof.
  intros Hr Ht Hp Hl.
  pose proof (handle_list key uuid now req ps products page limit Hr Ht Hp Hl) as Hh.
  split.
  - intros Hlo Hhi.
    destruct (listing_of_fields
      (Z.of_nat (length (matching (given (query_category (req_query req))) products)))
      (parsed (default (int_param 1) (query_page (req_query req))))
      (parsed (default (int_param 10) (query_limit (req_query req))))
      (slice (matching (given (query_category (req_query req))) products)
         ((page - 1) * limit) (page * limit))) as (o & Ho & Htot & Hitems).
    exists o. rewrite Hh, Ho. split; [done|]. split; [done|].
    by rewrite Hitems, slice_interval.
  - intros a b Hc -> -> Hm. rewrite Hc in Hh. simpl in Hh. simpl in Hm.
    rewrite Hm in Hh.
    destruct (listing_of_fields 2
      (parsed (default (int_param 1) (query_page (req_query req))))
      (parsed (default (int_param 10) (query_limit (req_query req))))
      [a]) as (o & Ho & Htot & Hitems).
    exists o. rewrite Hh. simpl. by rewrite <- Ho.
Qed.

(** ** Searching *)

Lemma append_nil_l (b : string) : ("" ++ b)%string = b.
Proof. reflexivity. Qed.

Lemma append_cons (c : ascii) (a b : string) :
  (String c a ++ b)%string = String c (a ++ b)%string.
Proof. reflexivity. Qed.

Lemma prefix_nil (s : string) : String.prefix "" s = true.
Proof. by destruct s. Qed.

Lemma prefix_cons (c d : ascii) (t s : string) :
  String.prefix (String c t) (String d s) =
    if ascii_dec c d then String.prefix t s else false.
Proof. reflexivity. Qed.

Lemma prefix_occurs (t s : string) :
  String.prefix t s = true <-> exists b : string, s = (t ++ b)%string.
Proof.
  revert s. induction t as [|c t IH]; intros s.
  - rewrite prefix_nil. split; [|done]. intros _. by exists s.
  - destruct s as [|d s].
    + split; [done|]. intros [b Hb]. by rewrite append_cons in Hb.
    + rewrite prefix_cons. destruct (ascii_dec c d) as [-> | Hne].
      * rewrite IH. split; intros [b Hb]; exists b.
        -- by rewrite append_cons, Hb.
        -- rewrite append_cons in Hb. congruence.
      * split; [done|]. intros [b Hb]. rewrite append_cons in Hb. congruence.
Qed.

Lemma includes_occurs (s t : string) : includes s t = true <-> occurs t s.
Proof.
  unfold occurs. induction s as [|c s IH].
  - cbn [includes]. rewrite orb_false_r, prefix_occurs. split.
    + intros [b Hb]. by exists "", b.
    + intros ([|a0 a] & b & Hb); [by exists b|].
      by rewrite append_cons in Hb.
  - cbn [includes]. rewrite orb_true_iff, prefix_occurs, IH. split.
    + intros [[b Hb] | (a & b & Hb)].
      * by exists "", b.
      * exists (String c a), b. by rewrite append_cons, Hb.
    + intros ([|a0 a] & b & Hb).
      * left. by exists b.
      * right. exists a, b. rewrite append_cons in Hb. congruence.
Qed.

Lemma append_length (a b : string) :
  String.length (a ++ b)%string = (String.length a + String.length b)%nat.
Proof.
  induction a as [|c a IH]; [done|].
  rewrite append_cons. simpl. by rewrite IH.
Qed.

Lemma includes_length (s t : string) :
  includes s t = true -> (String.length t <= String.length s)%nat.
Proof.
  intros H. apply includes_occurs in H as (a & b & ->).
  rewrite !append_length. lia.
Qed.

Lemma xs_length (k : nat) : String.length (xs k) = k.
Proof. induction k as [|k IH]; simpl; [done | by rewrite IH]. Qed.

Lemma toLowerCase_xs (k : nat) : toLowerCase (xs k) = xs k.
Proof.
  rewrite toLowerCase_ascii.
  - induction k as [|k IH]; simpl; [done | by rewrite IH].
  - induction k as [|k IH]; simpl; [done | by rewrite IH].
Qed.

(** A query longer than the folded name does not occur in it. *)
Lemma longer_not_included (n : string) :
  includes (toLowerCase n) (toLowerCase (xs (S (String.length (toLowerCase n))))) = false.
Proof.
  destruct (includes _ _) eqn:H; [|done].
  apply includes_length in H. rewrite toLowerCase_xs, xs_length in H. lia.
Qed.

Lemma matches_scannable (q : string) (p : object) :
  scannable q p -> matches q p = Ok (mentions q p).
Proof.
  intros (n & Hn & H). unfold matches, mentions. rewrite Hn. simpl.
  destruct (includes (toLowerCase n) (toLowerCase q)) eqn:Hi; [done|].
  destruct H as [H | [d Hd]]; [done|]. by rewrite Hd.
Qed.

Lemma search_scan (q : string) (products : store) :
  Forall (scannable q) products ->
  filterM (matches q) products = Ok (List.filter (mentions q) products).
Proof.
  induction 1 as [|p l Hp _ IH]; [done|].
  apply filterM_cons_Ok; [|done]. by apply matches_scannable.
Qed.

Lemma call_toLowerCase_throw (x : string) (v : value) (e : error) :
  call_toLowerCase x v = Throw e -> engine_error e.
Proof.
  unfold engine_error.
  destruct v; simpl; intros [= <-]; eexists; (split; [reflexivity|]);
    try discriminate; by destruct x.
Qed.

Lemma matches_throw (q : string) (p : object) (e : error) :
  matches q p = Throw e -> engine_error e.
Proof.
  unfold matches.
  destruct (call_toLowerCase "p.name" (get "name" p)) as [n|e1] eqn:Hn; simpl.
  - destruct (includes n (toLowerCase q)); [done|].
    destruct (call_toLowerCase "p.description" (get "description" p))
      as [d|e2] eqn:Hd; simpl; [done|].
    intros [= <-]. by apply (call_toLowerCase_throw _ _ _ Hd).
  - intros [= <-]. by apply (call_toLowerCase_throw _ _ _ Hn).
Qed.

Lemma matches_undescribed (q : string) (p : object) :
  undescribed q p -> exists e, matches q p = Throw e.
Proof.
  intros (Hd & n & Hn & Hi). unfold matches. rewrite Hn. simpl.
  rewrite Hi, Hd. simpl. eauto.
Qed.

Lemma filterM_throw {A} (f : A -> result bool) (P : error -> Prop) (l : list A) :
  (forall x e, f x = Throw e -> P e) ->
  Exists (fun x => exists e, f x = Throw e) l ->
  exists e, filterM f l = Throw e /\ P e.
Proof.
  intros HP. induction l as [|x l IH]; intros Hex.
  - by apply Exists_nil in Hex.
  - simpl. destruct (f x) as [b|e] eqn:Hx; simpl.
    + apply Exists_cons in Hex as [[e He] | Hex]; [congruence|].
      destruct (IH Hex) as (e & -> & He). simpl. eauto.
    + exists e. split; [done|]. by apply (HP x).
Qed.

Lemma errorHandler_engine (now : string) (e : error) :
  engine_error e ->
  exists m, errorHandler now e = json 500 (envelope m 500 now).
Proof.
  intros (m & -> & Hm). exists m. unfold errorHandler. simpl.
  by rewrite (eqb_empty_false m Hm).
Qed.

(** What [handle] does with a search request. *)
Lemma handle_search (key : option string) (uuid now : string) (req : request)
    (ps : gmap string string) (products : store) :
  routed key req route_search ps ->
  handle key uuid now req products =
    match query_q (req_query req) with
    | None => (json 400 (envelope "Search query is required" 400 now), products)
    | Some q =>
        if String.eqb q ""
        then (json 400 (envelope "Search query is required" 400 now), products)
        else match filterM (matches q) products with
             | Ok found => (json 200 (VArr (VObj <$> found)), products)
             | Throw e => (errorHandler now e, products)
             end
    end.
Proof.
  intros Hr. rewrite handle_routes. rewrite Hr. unfold route_search.
  cbn [route_chain route_handler run_chain]. unfold search.
  destruct (query_q (req_query req)) as [q|]; [|done].
  destruct (String.eqb q ""); [done|].
  by destruct (filterM (matches q) products).
Qed.

(** On a store whose records all have a text name and a text
    description, search is what the specification says: 400 without a
    query, otherwise the records that mention the query, in store
    order. *)
Lemma search_described (key : option string) (uuid now : string) (req : request)
    (ps : gmap string string) (products : store) :
  routed key req route_search ps ->
  Forall (fun p => text_name p /\ text_description p) products ->
  (query_q (req_query req) = None \/ query_q (req_query req) = Some "" ->
     handle key uuid now req products =
       (json 400 (envelope "Search query is required" 400 now), products))
  /\
  (forall q, query_q (req_query req) = Some q -> q <> "" ->
     handle key uuid now req products =
       (json 200 (VArr (VObj <$> List.filter (mentions q) products)), products)).
Proof.
  intros Hr Ht. rewrite (handle_search key uuid now req ps products Hr). split.
  - by intros [-> | ->].
  - intros q -> Hq. rewrite (eqb_empty_false q Hq).
    rewrite search_scan; [done|].
    eapply Forall_impl; [exact Ht|].
    intros p [[n Hn] Hd]. exists n. split; [done | by right].
Qed.

(** The specification's reading of "mentions": the name or the
    description is text in which the query occurs, case aside. *)
Lemma mentions_occurs (q : string) (p : object) :
  mentions q p = true <->
  (exists n, get "name" p = VStr n /\ occurs (toLowerCase q) (toLowerCase n)) \/
  (exists d, get "description" p = VStr d /\ occurs (toLowerCase q) (toLowerCase d)).
Proof.
  unfold mentions, field_includes. rewrite orb_true_iff.
  assert (H : forall v, match v with
                        | VStr s => includes (toLowerCase s) (toLowerCase q)
                        | _ => false
                        end = true <->
                        exists s, v = VStr s /\ occurs (toLowerCase q) (toLowerCase s)).
  { intros v. destruct v; try (split; [done | by intros (s0 & ? & _)]).
    rewrite includes_occurs. split.
    - intros H. by exists s.
    - by intros (s0 & [= <-] & H). }
  by rewrite !H.
Qed.

(** C6, amended: when some record has no description and its name does
    not contain the query, search with that non-empty query reads
    [toLowerCase] off [undefined] and ends in an unclassified failure,
    answered as HTTP 500, instead of the matching records.  A record
    without description whose name contains the query is returned
    normally, as long as no other record makes the scan fail.  On a
    store whose names are text and whose descriptions are text or
    missing, the 400 for a missing query is the only failure of search
    exactly when every record has a description. *)
Theorem search_without_description (key : option string) (products : store) :
  (forall uuid now req ps q,
     routed key req route_search ps ->
     query_q (req_query req) = Some q -> q <> "" ->
     Exists (undescribed q) products ->
     exists msg,
       handle key uuid now req products = (json 500 (envelope msg 500 now), products))
  /\
  (forall uuid now req ps q,
     routed key req route_search ps ->
     query_q (req_query req) = Some q -> q <> "" ->
     Forall (scannable q) products ->
     handle key uuid now req products =
       (json 200 (VArr (VObj <$> List.filter (mentions q) products)), products) /\
     forall p n,
       p ∈ products -> get "description" p = VUndef ->
       get "name" p = VStr n -> includes (toLowerCase n) (toLowerCase q) = true ->
       p ∈ List.filter (mentions q) products)
  /\
  (Forall (fun p => text_name p /\
                    (get "description" p = VUndef \/ text_description p)) products ->
   ((forall uuid now req ps,
       routed key req route_search ps ->
       status (fst (handle key uuid now req products)) = 200 \/
       (status (fst (handle key uuid now req products)) = 400 /\
        (query_q (req_query req) = None \/ query_q (req_query req) = Some "")))
    <->
    Forall (fun p => get "description" p <> VUndef) products)).
Proof.
  assert (Hfail : forall uuid now req ps q,
     routed key req route_search ps ->
     query_q (req_query req) = Some q -> q <> "" ->
     Exists (undescribed q) products ->
     exists msg,
       handle key uuid now req products = (json 500 (envelope msg 500 now), products)).
  { intros uuid now req ps q Hr Hq Hne Hex.
    rewrite (handle_search key uuid now req ps products Hr), Hq.
    rewrite (eqb_empty_false q Hne).
    destruct (filterM_throw (matches q) engine_error products) as (e & -> & He).
    - apply matches_throw.
    - eapply Exists_impl; [exact Hex|]. apply matches_undescribed.
    - destruct (errorHandler_engine now e He) as [m ->]. by exists m. }
  split; [exact Hfail|]. split.
  { intros uuid now req ps q Hr Hq Hne Hscan. split.
    - rewrite (handle_search key uuid now req ps products Hr), Hq.
      rewrite (eqb_empty_false q Hne). by rewrite (search_scan q products Hscan).
    - intros p n Hin Hd Hn Hi.
      apply list_elem_of_In, filter_In. split; [by apply list_elem_of_In|].
      unfold mentions, field_includes. by rewrite Hn, Hi. }
  intros Ht. split.
  - intros Hall. apply Forall_forall. intros p Hin Hd.
    rewrite Forall_forall in Ht. destruct (Ht p Hin) as [[n Hn] _].
    pose (q := xs (S (String.length (toLowerCase n)))).
    pose (req := request_of GET ["api"; "products"; "search"] ∅
                   (search_query (Some q)) ∅).
    assert (Hr : routed key req route_search ∅) by reflexivity.
    destruct (Hfail "" "" req ∅ q Hr eq_refl) as [msg Hmsg]; [done| |].
    + apply Exists_exists. exists p. split; [done|].
      split; [done|]. exists n. split; [done|]. apply longer_not_included.
    + specialize (Hall "" "" req ∅ Hr). rewrite Hmsg in Hall. simpl in Hall.
      destruct Hall as [? | [? _]]; done.
  - intros Hd uuid now req ps Hr.
    assert (Htext : Forall (fun p => text_name p /\ text_description p) products).
    { rewrite Forall_forall in *. intros p Hin.
      destruct (Ht p Hin) as [Hn [Hu | Hs]]; [|done].
      by destruct (Hd p Hin). }
    destruct (search_described key uuid now req ps products Hr Htext) as [H400 H200].
    destruct (query_q (req_query req)) as [q|] eqn:Hq.
    + destruct (decide (q = "")) as [-> | Hne].
      * right. rewrite H400 by (by right). simpl. split; [done | by right].
      * left. by rewrite (H200 q eq_refl Hne).
    + right. rewrite H400 by (by left). simpl. split; [done | by left].
Qed.

(** ** The error envelope *)

(** C10: a failure that reaches the error-handling middleware is answered
    with the body [{error: {message, status, timestamp}}]; the HTTP
    status and the [status] field are the failure's declared code (400
    for a [ValidationError], 404 for a [NotFoundError]) and 500 when it
    declares none; a request no route matches gets this envelope with
    status 404 and the message "Endpoint not found". *)
Theorem error_envelope (key : option string) (now : string) :
  (forall err, exists msg code,
     errorHandler now err = json code (envelope msg code now) /\
     (forall c, statusCode err = Some c -> c <> 0 -> code = c) /\
     (statusCode err = None -> code = 500) /\
     (message err <> "" -> msg = message err))
  /\
  (forall msg, msg <> "" ->
     errorHandler now (ValidationError msg) = json 400 (envelope msg 400 now) /\
     errorHandler now (NotFoundError msg) = json 404 (envelope msg 404 now))
  /\
  (forall uuid req products,
     find_route (routes key) req = None ->
     handle key uuid now req products =
       (json 404 (envelope "Endpoint not found" 404 now), products)).
Proof.
  split; [|split].
  - intros [msg [c|]]; unfold errorHandler; simpl.
    + destruct (c =? 0) eqn:Hc.
      * eexists _, 500. split; [reflexivity|].
        apply Z.eqb_eq in Hc. split; [|split].
        -- intros c0 [= <-] Hne. done.
        -- done.
        -- intros Hm. by rewrite (eqb_empty_false msg Hm).
      * eexists _, c. split; [reflexivity|]. split; [|split].
        -- by intros c0 [= <-] _.
        -- done.
        -- intros Hm. by rewrite (eqb_empty_false msg Hm).
    + eexists _, 500. split; [reflexivity|]. split; [|split].
      * done.
      * done.
      * intros Hm. by rewrite (eqb_empty_false msg Hm).
  - intros msg Hm. split.
    + by apply errorHandler_ValidationError.
    + by apply errorHandler_NotFoundError.
  - intros uuid req products Hr. rewrite handle_routes. by rewrite Hr.
Qed.

(** ** Concrete requests *)

Lemma authed_authorized (m : method) (p : list string) (q : query) (b : object) :
  authorized (Some secret) (authed m p q b).
Proof. exists secret. by repeat split. Qed.

Lemma seeded_text_categories : text_categories seeded.
Proof. repeat constructor; eexists; reflexivity. Qed.

(** * Further properties of the handlers *)

(** ** What leaves the store alone *)

(** X1: a GET request never changes the store, whatever it is answered
    with. *)
Theorem get_keeps_store (key : option string) (uuid now : string) (req : request)
    (products : store) :
  req_method req = GET ->
  snd (handle key uuid now req products) = products.
Proof.
  intros Hget. rewrite handle_store.
  destruct (find_route (routes key) req) as [[rt ps]|] eqn:Hr; [|done].
  apply find_route_In in Hr as [Hin Hm]. rewrite Hget in Hm.
  unfold routes in Hin.
  repeat (apply elem_of_cons in Hin as [-> | Hin]); simpl in *; try done.
  - unfold search. destruct (query_q (req_query req)) as [q|]; [|done].
    by destruct (String.eqb q "").
  - unfold getById. by destruct (List.find _ _).
  - by apply elem_of_nil in Hin.
Qed.

(** X2: a request answered with a status of 400 or more leaves the store
    exactly as it was. *)
Theorem failure_keeps_store (key : option string) (uuid now : string) (req : request)
    (products : store) :
  400 <= status (fst (handle key uuid now req products)) ->
  snd (handle key uuid now req products) = products.
Proof.
  rewrite handle_routes.
  destruct (find_route (routes key) req) as [[rt ps]|] eqn:Hr; [|done].
  apply find_route_In in Hr as [Hin _]. unfold routes in Hin.
  repeat (apply elem_of_cons in Hin as [-> | Hin]); simpl.
  - done.
  - unfold listProducts. by destruct (of_result _).
  - unfold search. destruct (query_q (req_query req)) as [q|]; [|done].
    destruct (String.eqb q ""); [done|]. by destruct (of_result _).
  - done.
  - unfold getById. by destruct (List.find _ _).
  - destruct (authenticate key req) as [[r|e]|]; [done | done |].
    destruct (validateProduct req) as [[r|e]|]; [done | done |].
    simpl. lia.
  - destruct (authenticate key req) as [[r|e]|]; [done | done |].
    destruct (validateProduct req) as [[r|e]|]; [done | done |].
    unfold update. destruct (findIndex _ _); simpl; [lia | done].
  - destruct (authenticate key req) as [[r|e]|]; [done | done |].
    unfold remove. destruct (findIndex _ _); simpl; [lia | done].
  - by apply elem_of_nil in Hin.
Qed.

(** ** Round trips *)

Lemma create_accepted (key : option string) (uuid now : string) (req : request)
    (ps : gmap string string) (products : store) :
  routed key req (route_create key) ps ->
  authorized key req ->
  validateProduct req = None ->
  exists p,
    handle key uuid now req products = (json 201 (VObj p), products ++ [p]) /\
    get "id" p = VStr uuid /\
    get "name" p = get "name" (body req) /\
    get "price" p = get "price" (body req) /\
    get "category" p = get "category" (body req).
Proof.
  intros Hr Ha Hv. eexists. split.
  - rewrite handle_routes, Hr. simpl.
    rewrite (authenticate_passes key req Ha), Hv. reflexivity.
  - unfold get at 1 3 5 7, product. by simplify_map_eq.
Qed.

(** X3: after an accepted creation whose identifier no stored record
    carries, [getById] with that identifier returns the very record the
    creation answered with. *)
Theorem create_then_get (key : option string) (uuid now : string) (req : request)
    (ps : gmap string string) (products : store) :
  routed key req (route_create key) ps ->
  authorized key req ->
  validateProduct req = None ->
  Forall (fun p => get "id" p <> VStr uuid) products ->
  exists p,
    handle key uuid now req products = (json 201 (VObj p), products ++ [p]) /\
    forall uuid' now' req' ps',
      routed key req' route_get ps' -> ps' !! "id" = Some uuid ->
      handle key uuid' now' req' (products ++ [p]) =
        (json 200 (VObj p), products ++ [p]).
Proof.
  intros Hr Ha Hv Hfresh.
  destruct (create_accepted key uuid now req ps products Hr Ha Hv)
    as (p & Hp & Hid & _).
  exists p. split; [done|].
  intros uuid' now' req' ps' Hr' Hps'.
  rewrite handle_routes, Hr'. simpl.
  by rewrite (getById_found ps' uuid uuid' req' products [] p Hps' Hfresh Hid).
Qed.

(** X4: an accepted creation with a new identifier followed by an
    authorized deletion of that identifier gives back the store as it
    was before the creation. *)
Theorem create_then_delete (key : option string) (uuid now : string) (req : request)
    (ps : gmap string string) (products : store) :
  routed key req (route_create key) ps ->
  authorized key req ->
  validateProduct req = None ->
  Forall (fun p => get "id" p <> VStr uuid) products ->
  forall uuid' now' req' ps',
    routed key req' (route_delete key) ps' -> ps' !! "id" = Some uuid ->
    authorized key req' ->
    handle key uuid' now' req' (snd (handle key uuid now req products)) =
      ({| status := 204; content := NoBody |}, products).
Proof.
  intros Hr Ha Hv Hfresh uuid' now' req' ps' Hr' Hps' Ha'.
  destruct (create_accepted key uuid now req ps products Hr Ha Hv)
    as (p & -> & Hid & _). simpl.
  rewrite handle_routes, Hr'. simpl.
  rewrite (authenticate_passes key req' Ha').
  rewrite (remove_found ps' uuid uuid' req' products [] p Hps' Hfresh Hid).
  by rewrite app_nil_r.
Qed.

Lemma spread_twice (old b : object) : spread (spread old b) b = spread old b.
Proof.
  unfold spread. apply map_eq. intros k.
  rewrite !lookup_union. by destruct (b !! k), (old !! k).
Qed.

(** X5: an update whose body supplies no [id] is idempotent on the
    store: sending the same request again leaves the store as the first
    send left it, and the second send is answered exactly as a single
    send at that moment would be, that is, as the first one was, the
    timestamp of an error envelope aside. *)
Theorem update_idempotent (key : option string) (uuid uuid' now now' : string)
    (req : request) (ps : gmap string string) (id : string) (products : store) :
  routed key req (route_update key) ps ->
  ps !! "id" = Some id ->
  body req !! "id" = None ->
  snd (handle key uuid' now' req (snd (handle key uuid now req products))) =
    snd (handle key uuid now req products)
  /\
  fst (handle key uuid' now' req (snd (handle key uuid now req products))) =
    fst (handle key uuid now' req products).
Proof.
  intros Hr Hps Hb.
  assert (Hh : forall u t st, handle key u t req st =
            let '(r, st') :=
              run_chain [authenticate key; validateProduct] (update ps u) req st in
            match r with
            | Respond res => (res, st')
            | Fail err => (errorHandler t err, st')
            end).
  { intros u t st. by rewrite handle_routes, Hr. }
  destruct (authenticate key req) as [r|] eqn:Ha.
  { rewrite !Hh. simpl. rewrite !Ha. by destruct r. }
  destruct (validateProduct req) as [r|] eqn:Hv.
  { rewrite !Hh. simpl. rewrite !Ha, !Hv. by destruct r. }
  assert (Hh' : forall u t st, handle key u t req st =
            match update ps u req st with
            | (Respond res, st') => (res, st')
            | (Fail err, st') => (errorHandler t err, st')
            end).
  { intros u t st. rewrite Hh. simpl. rewrite Ha, Hv.
    by destruct (update ps u req st) as [[res|err] st']. }
  clear Hh. rewrite (Hh' uuid now products), (Hh' uuid now' products).
  destruct (findIndex (has_id ps) products) as [i|] eqn:Hi.
  - apply findIndex_Some in Hi as (l1 & old & l2 & -> & _ & Hl1 & Hold).
    assert (Hl1' : Forall (fun x => get "id" x <> VStr id) l1).
    { eapply Forall_impl; [exact Hl1|]. intros x. by apply has_id_false. }
    apply (has_id_true ps id old Hps) in Hold.
    rewrite (update_found ps id uuid req l1 l2 old Hps Hl1' Hold).
    cbn [snd]. rewrite Hh'.
    rewrite (update_found ps id uuid' req l1 l2 (spread old (body req)) Hps Hl1').
    + by rewrite spread_twice.
    + unfold get, spread in *. by rewrite lookup_union_r.
  - assert (Hu : forall u, update ps u req products =
                   (Fail (NotFoundError "Product not found"), products)).
    { intros u. unfold update. by rewrite Hi. }
    rewrite Hu. cbn [snd]. rewrite Hh'. by rewrite Hu.
Qed.

(** ** What the validator guarantees *)

Lemma truthy_supplied (k : string) (b : object) :
  truthy (get k b) = true -> exists v, b !! k = Some v.
Proof. unfold get. destruct (b !! k) as [v|]; [eauto | done]. Qed.

Lemma get_spread_supplied (k : string) (old b : object) :
  truthy (get k b) = true -> get k (spread old b) = get k b.
Proof.
  intros H. destruct (truthy_supplied k b H) as [v Hv].
  unfold get, spread. by rewrite (lookup_union_Some_l _ _ _ _ Hv), Hv.
Qed.

Lemma validated_record (req : request) (p : object) :
  validateProduct req = None ->
  get "name" p = get "name" (body req) ->
  get "price" p = get "price" (body req) ->
  get "category" p = get "category" (body req) ->
  valid_record p.
Proof.
  intros Hv Hn Hp Hc. apply validateProduct_passes in Hv as (H1 & H2 & H3).
  unfold valid_record. by rewrite Hn, Hp, Hc.
Qed.

Lemma step_valid (key : option string) (uuid now : string) (req : request)
    (products : store) :
  Forall valid_record products ->
  Forall valid_record (snd (handle key uuid now req products)).
Proof.
  intros Hall. rewrite handle_store.
  destruct (find_route (routes key) req) as [[rt ps]|] eqn:Hr; [|done].
  apply find_route_In in Hr as [Hin _]. unfold routes in Hin.
  repeat (apply elem_of_cons in Hin as [-> | Hin]); simpl.
  - done.
  - done.
  - unfold search. destruct (query_q (req_query req)) as [q|]; [|done].
    by destruct (String.eqb q "").
  - done.
  - unfold getById. by destruct (List.find _ _).
  - destruct (authenticate key req); [done|].
    destruct (validateProduct req) eqn:Hv; [done|]. simpl.
    apply Forall_app. split; [done|]. constructor; [|constructor].
    apply (validated_record req _ Hv); unfold get at 1, product; by simplify_map_eq.
  - destruct (authenticate key req); [done|].
    destruct (validateProduct req) eqn:Hv; [done|].
    unfold update. destruct (findIndex _ _) as [i|]; simpl; [|done].
    apply Forall_insert; [done|].
    pose proof (validateProduct_passes req Hv) as (H1 & H2 & q & H3 & Hq).
    apply (validated_record req _ Hv); apply get_spread_supplied; [done | | done].
    rewrite H3. by apply positive_truthy.
  - destruct (authenticate key req); [done|].
    unfold remove. destruct (findIndex _ _) as [i|]; simpl; [|done].
    by apply Forall_delete.
  - by apply elem_of_nil in Hin.
Qed.

(** X6: the three records the store starts with have a truthy name, a
    truthy category and a positive numeric price, and every sequence of
    requests keeps that true of every stored record: an update cannot
    slip an invalid name, category or price past the validator. *)
Theorem valid_records_preserved (key : option string) (steps : list step)
    (products : store) :
  (forall id1 id2 id3, Forall valid_record (products0 id1 id2 id3)) /\
  (Forall valid_record products -> Forall valid_record (run key steps products)).
Proof.
  split.
  - intros id1 id2 id3. unfold products0.
    repeat constructor; unfold valid_record, get, product; simplify_map_eq;
      repeat split; try done; eexists; split; done.
  - revert products. induction steps as [|s steps IH]; intros products Hall; [done|].
    simpl. apply IH. by apply step_valid.
Qed.

(** X7: the validator's three outcomes.  It lets a body through exactly
    when name and category are truthy and the price is a positive
    number; it reports the fields as required exactly when one of the
    three is falsy, which includes a price of 0; and it reports the
    price as not positive exactly when all three are truthy and the
    price is not a number or is negative. *)
Theorem validateProduct_outcomes (req : request) :
  (validateProduct req = None <->
     truthy (get "name" (body req)) = true /\
     truthy (get "category" (body req)) = true /\
     exists q, get "price" (body req) = VNum q /\ (0 < q)%Q)
  /\
  (validateProduct req = Some (Fail (ValidationError required_message)) <->
     truthy (get "name" (body req)) = false \/
     truthy (get "price" (body req)) = false \/
     truthy (get "category" (body req)) = false)
  /\
  (validateProduct req = Some (Fail (ValidationError positive_message)) <->
     truthy (get "name" (body req)) = true /\
     truthy (get "price" (body req)) = true /\
     truthy (get "category" (body req)) = true /\
     (is_number (get "price" (body req)) = false \/
      exists q, get "price" (body req) = VNum q /\ (q < 0)%Q))
  /\
  (forall q, get "price" (body req) = VNum q -> (q == 0)%Q ->
     validateProduct req = Some (Fail (ValidationError required_message))).
Proof.
  assert (Hzero : forall q, (q == 0)%Q -> truthy (VNum q) = false).
  { intros q Hq. simpl. apply Qeq_bool_iff in Hq. by rewrite Hq. }
  assert (Hle : forall q, Qle_bool q 0 = true <-> (q <= 0)%Q)
    by (intros q; apply Qle_bool_iff).
  assert (Hcases : forall v, truthy v = true ->
            (negb (is_number v) || le_zero v = false <->
               exists q, v = VNum q /\ (0 < q)%Q) /\
            (negb (is_number v) || le_zero v = true <->
               is_number v = false \/ exists q, v = VNum q /\ (q < 0)%Q)).
  { intros v Hv. destruct v as [| | |q| | |]; simpl;
      try (split; split; [done | by intros (? & ? & _) | by left | done]).
    destruct (Qle_bool q 0) eqn:E.
    - apply Hle in E. split; split; try done.
      + intros (q' & [= <-] & Hpos). by apply Qlt_not_le in Hpos.
      + intros _. right. exists q. split; [done|].
        apply Qle_lt_or_eq in E as [Hlt | Heq]; [done|].
        by rewrite (Hzero q Heq) in Hv.
    - assert (Hpos : (0 < q)%Q).
      { apply Qnot_le_lt. intros H. apply Hle in H. congruence. }
      split; split; try done.
      + intros _. by exists q.
      + intros [? | (q' & [= <-] & Hlt)]; [done|].
        exfalso. apply (Qlt_irrefl 0). by apply (Qlt_trans _ q). }
  unfold validateProduct, required_message, positive_message.
  destruct (truthy (get "name" (body req))) eqn:Hn;
    destruct (truthy (get "price" (body req))) eqn:Hp;
    destruct (truthy (get "category" (body req))) eqn:Hc; simpl.
  2-8: split; [|split; [|split]];
    [ split; [done|]; intros (H1 & H2 & q & Hq & Hpos);
      first [ discriminate H1 | discriminate H2
            | rewrite Hq in Hp; rewrite (positive_truthy q Hpos) in Hp;
              discriminate Hp ]
    | split; [intros _; auto | done]
    | split; [done|]; intros (H1 & H2 & H3 & _);
      first [ discriminate H1 | discriminate H2 | discriminate H3 ]
    | done ].
  destruct (Hcases _ Hp) as [Hpass Hfail].
  destruct (negb (is_number (get "price" (body req))) || le_zero (get "price" (body req)))
    eqn:E.
  - split; [|split; [|split]].
    + split; [done|]. intros (_ & _ & H). apply Hpass in H. done.
    + split; [done|]. by intros [? | [? | ?]].
    + split; [|done]. intros _. repeat split; try done. by apply Hfail.
    + intros q Hq Hq0. rewrite Hq in Hp. by rewrite (Hzero q Hq0) in Hp.
  - split; [|split; [|split]].
    + split; [|done]. intros _. repeat split; try done. by apply Hpass.
    + split; [done|]. by intros [? | [? | ?]].
    + split; [done|]. intros (_ & _ & _ & H). apply Hfail in H. done.
    + intros q Hq Hq0. rewrite Hq in Hp. by rewrite (Hzero q Hq0) in Hp.
Qed.

(** ** Authentication and the order of the checks *)

(** X8: when no secret is configured, or the configured secret is the
    empty string, no header value authenticates: every create, update
    and delete request is answered with 401 and changes nothing. *)
Theorem unset_key_rejects (key : option string) (uuid now : string) (req : request)
    (rt : route) (ps : gmap string string) (products : store) :
  key = None \/ key = Some "" ->
  routed key req rt ps ->
  rt = route_create key \/ rt = route_update key \/ rt = route_delete key ->
  handle key uuid now req products = (unauthorized, products).
Proof.
  intros Hkey Hr Hrt.
  assert (Hrej : authenticate key req = Some (Respond unauthorized)).
  { unfold authenticate.
    destruct (headers req !! "x-api-key") as [k|]; [|done].
    destruct (String.eqb k "") eqn:Hk; [done|]. simpl.
    rewrite bool_decide_eq_false_2; [done|].
    apply String.eqb_neq in Hk. destruct Hkey as [-> | ->]; congruence. }
  rewrite handle_routes, Hr.
  destruct Hrt as [-> | [-> | ->]]; simpl; by rewrite Hrej.
Qed.

(** X9: the checks of an update run in a fixed order.  An authorized
    update with a body the validator refuses is answered 400 whether or
    not the identifier exists; only a body that passes is looked up, and
    then an unknown identifier is answered 404 "Product not found"; in
    both cases the store is unchanged. *)
Theorem update_checks_in_order (key : option string) (uuid now : string)
    (req : request) (ps : gmap string string) (id : string) (products : store) :
  routed key req (route_update key) ps ->
  ps !! "id" = Some id ->
  authorized key req ->
  (forall msg, validateProduct req = Some (Fail (ValidationError msg)) ->
     msg <> "" ->
     handle key uuid now req products = (json 400 (envelope msg 400 now), products))
  /\
  (validateProduct req = None ->
   Forall (fun p => get "id" p <> VStr id) products ->
   handle key uuid now req products =
     (json 404 (envelope "Product not found" 404 now), products)).
Proof.
  intros Hr Hps Ha. split.
  - intros msg Hv Hmsg. rewrite handle_routes, Hr. simpl.
    rewrite (authenticate_passes key req Ha), Hv.
    by rewrite errorHandler_ValidationError.
  - intros Hv Hno. rewrite handle_routes, Hr. simpl.
    rewrite (authenticate_passes key req Ha), Hv. unfold update.
    by rewrite (lookup_missing ps id products Hps Hno).
Qed.


(** ** Pages *)

Lemma get_list_routed (key : option string) (q : query) :
  routed key (get_list q) route_list ∅.
Proof. reflexivity. Qed.

Lemma listed_listing_of (code total : Z) (page limit : value) (items : store) :
  listed (json code (listing_of total page limit items)) = VObj <$> items.
Proof. unfold listed, listing_of, get. simpl. by simplify_map_eq. Qed.

Lemma slice_take_drop {A} (l : list A) (lo hi : Z) :
  0 <= lo -> 0 <= hi ->
  slice l lo hi = take (Z.to_nat hi - Z.to_nat lo)%nat (drop (Z.to_nat lo) l).
Proof.
  intros Hlo Hhi. rewrite slice_interval by done.
  unfold interval. rewrite positions_from_take_drop. by rewrite !Z.sub_0_r.
Qed.

(** Page [p] of size [m], counted from 1. *)
Lemma slice_page {A} (l : list A) (p m : nat) :
  (1 <= p)%nat ->
  slice l ((Z.of_nat p - 1) * Z.of_nat m) (Z.of_nat p * Z.of_nat m) =
    take m (drop ((p - 1) * m) l).
Proof.
  intros Hp. rewrite slice_take_drop by nia.
  replace (Z.to_nat ((Z.of_nat p - 1) * Z.of_nat m)) with ((p - 1) * m)%nat by nia.
  f_equal. nia.
Qed.

(** X11: for a page size of at least one, the pages 1, 2, ..., n of a
    listing, put one after the other, are the first n times limit
    records of the filtered sequence, so that every matching record
    appears on exactly one page and in store order. *)
Theorem pages_partition (key : option string) (uuid now : string)
    (category : option string) (limit : Z) (n : nat) (products : store) :
  text_categories products ->
  0 < limit ->
  concat ((fun p => listed (fst (handle key uuid now
              (get_list (list_query category (Some (Z.of_nat p)) (Some limit)))
              products))) <$> seq 1 n) =
    VObj <$> take (n * Z.to_nat limit) (matching (given category) products)
  /\
  (Z.of_nat (length (matching (given category) products)) <= Z.of_nat n * limit ->
   concat ((fun p => listed (fst (handle key uuid now
               (get_list (list_query category (Some (Z.of_nat p)) (Some limit)))
               products))) <$> seq 1 n) =
     VObj <$> matching (given category) products).
Proof.
  intros Ht Hl.
  assert (Hpage : forall p, (1 <= p)%nat ->
            listed (fst (handle key uuid now
              (get_list (list_query category (Some (Z.of_nat p)) (Some limit)))
              products)) =
            VObj <$> take (Z.to_nat limit)
                       (drop ((p - 1) * Z.to_nat limit)
                          (matching (given category) products))).
  { intros p Hp.
    rewrite (handle_list key uuid now
               (get_list (list_query category (Some (Z.of_nat p)) (Some limit)))
               ∅ products (Z.of_nat p) limit
               (get_list_routed key _) (fun _ _ => Ht) eq_refl eq_refl).
    cbn [fst]. rewrite listed_listing_of. f_equal.
    rewrite <- slice_page by done. by rewrite Z2Nat.id by lia. }
  assert (Hall : concat ((fun p => listed (fst (handle key uuid now
              (get_list (list_query category (Some (Z.of_nat p)) (Some limit)))
              products))) <$> seq 1 n) =
            VObj <$> take (n * Z.to_nat limit) (matching (given category) products)).
  { induction n as [|n IH]; [done|].
    rewrite seq_S, fmap_app, concat_app, IH. simpl.
    rewrite Hpage by lia. rewrite app_nil_r, <- fmap_app.
    replace (S n - 1)%nat with n by lia.
    rewrite take_take_drop. f_equal. f_equal. lia. }
  split; [exact Hall|].
  intros Hlen. rewrite Hall. f_equal. apply take_ge. nia.
Qed.

(** X12: for a whole page of at least one and a whole limit that is not
    negative (1 and 10 when omitted), a listing returns at most limit
    records, which form a run of the filtered sequence, and none at all
    when the page starts beyond the last matching record; [total] counts
    all matching records whatever the page. *)
Theorem list_page_bounds (key : option string) (uuid now : string) (req : request)
    (ps : gmap string string) (products : store) (page limit : Z) :
  routed key req route_list ps ->
  (forall c, given (query_category (req_query req)) = Some c ->
             text_categories products) ->
  whole (query_page (req_query req)) 1 page ->
  whole (query_limit (req_query req)) 10 limit ->
  1 <= page ->
  0 <= limit ->
  exists o items,
    handle key uuid now req products = (json 200 (VObj o), products) /\
    get "total" o =
      num (Z.of_nat (length (matching (given (query_category (req_query req)))
                               products))) /\
    get "products" o = VArr (VObj <$> items) /\
    Z.of_nat (length items) <= limit /\
    items `sublist_of` matching (given (query_category (req_query req))) products /\
    (Z.of_nat (length (matching (given (query_category (req_query req))) products))
       <= (page - 1) * limit ->
     items = []).
Proof.
  intros Hr Ht Hp Hl Hpage Hlimit.
  destruct (listing_of_fields
    (Z.of_nat (length (matching (given (query_category (req_query req))) products)))
    (parsed (default (int_param 1) (query_page (req_query req))))
    (parsed (default (int_param 10) (query_limit (req_query req))))
    (slice (matching (given (query_category (req_query req))) products)
       ((page - 1) * limit) (page * limit))) as (o & Ho & Htot & Hitems).
  exists o. eexists. split; [|split; [exact Htot | split; [exact Hitems|]]].
  - rewrite (handle_list key uuid now req ps products page limit Hr Ht Hp Hl).
    by rewrite Ho.
  - rewrite slice_take_drop by nia. split; [|split].
    + rewrite length_take. nia.
    + etrans; [apply sublist_take | apply sublist_drop].
    + intros Hlen. rewrite drop_ge; [by rewrite take_nil | nia].
Qed.

(** X13: on the first page a negative whole limit is not refused: the
    bounds are 0 and the limit, and [slice] answers with all matching
    records but the last -limit ones. *)
Theorem negative_limit_drops_last (key : option string) (uuid now : string)
    (req : request) (ps : gmap string string) (limit : Z) (products : store) :
  routed key req route_list ps ->
  (forall c, given (query_category (req_query req)) = Some c ->
             text_categories products) ->
  whole (query_page (req_query req)) 1 1 ->
  whole (query_limit (req_query req)) 10 limit ->
  limit < 0 ->
  exists o,
    handle key uuid now req products = (json 200 (VObj o), products) /\
    get "total" o =
      num (Z.of_nat (length (matching (given (query_category (req_query req)))
                               products))) /\
    get "products" o =
      VArr (VObj <$>
        take (length (matching (given (query_category (req_query req))) products)
              - Z.to_nat (- limit))
          (matching (given (query_category (req_query req))) products)).
Proof.
  intros Hr Ht Hp Hl Hneg.
  destruct (listing_of_fields
    (Z.of_nat (length (matching (given (query_category (req_query req))) products)))
    (parsed (default (int_param 1) (query_page (req_query req))))
    (parsed (default (int_param 10) (query_limit (req_query req))))
    (slice (matching (given (query_category (req_query req))) products)
       ((1 - 1) * limit) (1 * limit))) as (o & Ho & Htot & Hitems).
  exists o. split; [|split; [exact Htot|]].
  - rewrite (handle_list key uuid now req ps products 1 limit Hr Ht Hp Hl).
    by rewrite Ho.
  - rewrite Hitems. do 2 f_equal.
    rewrite Z.sub_diag, Z.mul_0_l, Z.mul_1_l.
    unfold slice, rel_index.
    destruct (limit <? 0) eqn:E; [|apply Z.ltb_ge in E; lia].
    change (0 <? 0) with false. cbv iota. rewrite Z.min_l by lia.
    simpl (Z.to_nat 0). rewrite drop_0. f_equal.
    destruct (Z.max_spec
      (Z.of_nat (length (matching (given (query_category (req_query req))) products))
       + limit) 0) as [[? ->] | [? ->]]; lia.
Qed.

(** ** Statistics *)

Lemma incr_num (n : Z) : incr (num n) = num (n + 1).
Proof.
  unfold incr, num, inject_Z, Qplus. simpl. by rewrite Z.mul_1_r.
Qed.

Lemma truthy_num (n : Z) : n <> 0 -> truthy (num n) = true.
Proof. intros Hn. by destruct n. Qed.

(** The counter object holds, for every category, the count [f] says;
    a category counted zero times has no property. *)
Lemma count_category_step (stats : object) (f : string -> nat) (p : object) (s : string) :
  (forall c, stats !! c = match f c with
                          | O => None
                          | S n => Some (num (Z.of_nat (S n)))
                          end) ->
  get "category" p = VStr s ->
  forall c, count_category stats p !! c =
    match (if String.eqb s c then S (f c) else f c) with
    | O => None
    | S n => Some (num (Z.of_nat (S n)))
    end.
Proof.
  intros Hstats Hs c. unfold count_category. rewrite Hs.
  assert (Hget : get s (if truthy (get s stats) then stats else <[s:=num 0]> stats)
                 = num (Z.of_nat (f s))).
  { unfold get at 2. rewrite (Hstats s). destruct (f s) as [|n] eqn:Hf.
    - simpl. unfold get. by rewrite lookup_insert_eq.
    - rewrite truthy_num by lia. unfold get. by rewrite (Hstats s), Hf. }
  rewrite Hget, incr_num.
  destruct (String.eqb s c) eqn:Hsc.
  - apply String.eqb_eq in Hsc as <-. rewrite lookup_insert_eq.
    do 2 f_equal. lia.
  - apply String.eqb_neq in Hsc. rewrite lookup_insert_ne by done.
    destruct (truthy (get s stats)); [apply Hstats|].
    rewrite lookup_insert_ne by done. apply Hstats.
Qed.

Lemma fold_count_category (products : store) :
  text_categories products ->
  forall (stats : object) (f : string -> nat),
    (forall c, stats !! c = match f c with
                            | O => None
                            | S n => Some (num (Z.of_nat (S n)))
                            end) ->
    forall c, fold_left count_category products stats !! c =
      match (f c + length (List.filter (in_category c) products))%nat with
      | O => None
      | S n => Some (num (Z.of_nat (S n)))
      end.
Proof.
  induction 1 as [|p l [s Hs] _ IH]; intros stats f Hstats c.
  - simpl. rewrite Nat.add_0_r. apply Hstats.
  - simpl fold_left.
    rewrite (IH _ _ (count_category_step stats f p s Hstats Hs) c).
    simpl List.filter. unfold in_category at 2. rewrite Hs.
    destruct (String.eqb s c); simpl length.
    + by replace (S (f c) + length (List.filter (in_category c) l))%nat
        with (f c + S (length (List.filter (in_category c) l)))%nat by lia.
    + done.
Qed.

(** X14: on a store whose categories are text and name no inherited
    property, the statistics hold, for every category, the number of
    records whose category is exactly that text, case included, and no
    entry for a category that no record has. *)
Theorem stats_counts (key : option string) (uuid now : string) (req : request)
    (ps : gmap string string) (products : store) :
  routed key req route_stats ps ->
  plain_categories products ->
  exists stats,
    handle key uuid now req products = (json 200 (VObj stats), products) /\
    forall c, stats !! c =
      match length (List.filter (in_category c) products) with
      | O => None
      | S n => Some (num (Z.of_nat (S n)))
      end.
Proof.
  intros Hr Hplain. eexists. split.
  - rewrite handle_routes, Hr. reflexivity.
  - intros c.
    assert (Ht : text_categories products).
    { eapply Forall_impl; [exact Hplain|]. intros p (s & Hs & _). by exists s. }
    by rewrite (fold_count_category products Ht ∅ (fun _ => O)).
Qed.

(** ** Search on described records *)

(** X15: when every record has a text name and, unless its name already
    contains the query, a text description, a search with a non-empty
    query answers 200 with exactly the records whose name or description
    contains the query, letter case aside, in store order. *)
Theorem search_finds_mentions (key : option string) (uuid now : string)
    (req : request) (ps : gmap string string) (q : string) (products : store) :
  routed key req route_search ps ->
  query_q (req_query req) = Some q -> q <> "" ->
  Forall (scannable q) products ->
  exists found,
    handle key uuid now req products = (json 200 (VArr (VObj <$> found)), products) /\
    found `sublist_of` products /\
    forall p, p ∈ found <->
      p ∈ products /\
      ((exists n, get "name" p = VStr n /\ occurs (toLowerCase q) (toLowerCase n)) \/
       (exists d, get "description" p = VStr d /\
                  occurs (toLowerCase q) (toLowerCase d))).
Proof.
  intros Hr Hq Hne Hscan. exists (List.filter (mentions q) products).
  split; [|split].
  - rewrite (handle_search key uuid now req ps products Hr), Hq.
    rewrite (eqb_empty_false q Hne). by rewrite (search_scan q products Hscan).
  - clear. induction products as [|p l IH]; simpl; [done|].
    destruct (mentions q p); [by apply sublist_skip | by apply sublist_cons].
  - intros p. rewrite list_elem_of_In, filter_In, <- list_elem_of_In.
    by rewrite mentions_occurs.
Qed.

(** ** Letter case *)

Lemma filterM_ext {A} (f g : A -> result bool) (l : list A) :
  (forall x, f x = g x) -> filterM f l = filterM g l.
Proof. intros H. induction l as [|x l IH]; simpl; [done|]. by rewrite H, IH. Qed.

Lemma get_search_routed (key : option string) (q : option string) :
  routed key (get_search q) route_search ∅.
Proof. reflexivity. Qed.

Lemma toLowerCase_nil : toLowerCase "" = "".
Proof. by rewrite toLowerCase_ascii. Qed.

Lemma lower_empty (a b : string) :
  toLowerCase a = toLowerCase b -> String.eqb a "" = String.eqb b "".
Proof.
  intros H. destruct a as [|c a], b as [|d b]; try done.
  - rewrite toLowerCase_nil in H. symmetry in H.
    by apply toLowerCase_empty in H.
  - rewrite toLowerCase_nil in H. by apply toLowerCase_empty in H.
Qed.

(** X16: a search query and a category filter are compared without
    regard to letter case: two queries, or two categories, that differ
    only in case are answered identically on every store, failures
    included. *)
Theorem queries_ignore_case (key : option string) (uuid now : string)
    (q1 q2 : string) (page limit : option Z) (products : store) :
  toLowerCase q1 = toLowerCase q2 ->
  handle key uuid now (get_search (Some q1)) products =
    handle key uuid now (get_search (Some q2)) products
  /\
  handle key uuid now (get_list (list_query (Some q1) page limit)) products =
    handle key uuid now (get_list (list_query (Some q2) page limit)) products.
Proof.
  intros Hq. split.
  - rewrite !(handle_search key uuid now _ ∅ products (get_search_routed key _)).
    simpl.
    rewrite (lower_empty q1 q2 Hq).
    rewrite (filterM_ext (matches q1) (matches q2)); [done|].
    intros p. unfold matches. by rewrite Hq.
  - rewrite !handle_routes, !get_list_routed. unfold route_list.
    cbn [route_chain route_handler run_chain]. unfold listProducts. simpl.
    rewrite (lower_empty q1 q2 Hq).
    rewrite (filterM_ext (category_is q1) (category_is q2)); [done|].
    intros p. unfold category_is. by rewrite Hq.
Qed.

(** ** Size of the store *)

Lemma filterM_Throw {A} (f : A -> result bool) (l : list A) (e : error) :
  filterM f l = Throw e -> exists x, f x = Throw e.
Proof.
  induction l as [|x l IH]; simpl; [done|].
  destruct (f x) as [b|e1] eqn:Hx; simpl.
  - destruct (filterM f l) as [r|e2]; simpl; [done|].
    intros [= <-]. by apply IH.
  - intros [= <-]. by exists x.
Qed.

Lemma category_is_throw (c : string) (p : object) (e : error) :
  category_is c p = Throw e -> engine_error e.
Proof.
  unfold category_is.
  destruct (call_toLowerCase "p.category" (get "category" p))
    as [s|e1] eqn:Hc; simpl; [done|].
  intros [= <-]. by apply (call_toLowerCase_throw _ _ _ Hc).
Qed.

(** The answers that are neither 201 nor 204. *)
Lemma errorHandler_status (now : string) (e : error) :
  engine_error e \/ (exists msg, e = ValidationError msg) \/
  (exists msg, e = NotFoundError msg) ->
  status (errorHandler now e) <> 201 /\ status (errorHandler now e) <> 204.
Proof.
  intros [(m & -> & _) | [[m ->] | [m ->]]]; by simpl.
Qed.

Lemma listProducts_reply (ps : gmap string string) (uuid : string) (req : request)
    (products : store) :
  exists r, listProducts ps uuid req products = (r, products) /\
    match r with
    | Respond res => status res = 200
    | Fail e => engine_error e
    end.
Proof.
  unfold listProducts.
  destruct (query_category (req_query req)) as [c|]; [|by eexists].
  destruct (String.eqb c ""); [by eexists|].
  destruct (filterM (category_is c) products) as [l|e] eqn:Ef; [by eexists|].
  eexists. split; [reflexivity|]. simpl.
  destruct (filterM_Throw _ _ _ Ef) as [p Hp]. by apply (category_is_throw c p).
Qed.

Lemma search_reply (ps : gmap string string) (uuid : string) (req : request)
    (products : store) :
  exists r, search ps uuid req products = (r, products) /\
    match r with
    | Respond res => status res = 200
    | Fail e => engine_error e \/ exists msg, e = ValidationError msg
    end.
Proof.
  unfold search.
  destruct (query_q (req_query req)) as [q|];
    [|eexists; split; [reflexivity | right; by eexists]].
  destruct (String.eqb q "");
    [eexists; split; [reflexivity | right; by eexists]|].
  destruct (filterM (matches q) products) as [l|e] eqn:Ef; [by eexists|].
  eexists. split; [reflexivity|]. simpl. left.
  destruct (filterM_Throw _ _ _ Ef) as [p Hp]. by apply (matches_throw q p).
Qed.

(** X17: the status of the answer tells how the number of stored
    records changed: one more after a 201, one fewer after a 204, and
    the same number after any other answer. *)
Theorem status_tells_size (key : option string) (uuid now : string) (req : request)
    (products : store) :
  (status (fst (handle key uuid now req products)) = 201 ->
     length (snd (handle key uuid now req products)) = S (length products)) /\
  (status (fst (handle key uuid now req products)) = 204 ->
     S (length (snd (handle key uuid now req products))) = length products) /\
  (status (fst (handle key uuid now req products)) <> 201 ->
   status (fst (handle key uuid now req products)) <> 204 ->
     length (snd (handle key uuid now req products)) = length products).
Proof.
  assert (Hsame : forall res : response,
            status res <> 201 /\ status res <> 204 ->
            (status res = 201 -> length products = S (length products)) /\
            (status res = 204 -> S (length products) = length products) /\
            (status res <> 201 -> status res <> 204 ->
               length products = length products)).
  { intros res [H1 H2]. by repeat split. }
  assert (Hfail : forall e,
            engine_error e \/ (exists msg, e = ValidationError msg) \/
            (exists msg, e = NotFoundError msg) ->
            (status (errorHandler now e) = 201 ->
               length products = S (length products)) /\
            (status (errorHandler now e) = 204 ->
               S (length products) = length products) /\
            (status (errorHandler now e) <> 201 ->
             status (errorHandler now e) <> 204 ->
               length products = length products)).
  { intros e He. apply Hsame. by apply errorHandler_status. }
  assert (Hauth : authenticate key req = None \/
                  authenticate key req = Some (Respond unauthorized)).
  { unfold authenticate, unauthorized, json.
    destruct (headers req !! "x-api-key") as [k|]; [|by right].
    destruct (_ || _); [by right | by left]. }
  assert (Hval : validateProduct req = None \/
                 exists msg, validateProduct req = Some (Fail (ValidationError msg))).
  { destruct (validateProduct_fails_or_passes req) as [H | (msg & _ & H)];
      [by left | right; by exists msg]. }
  rewrite handle_routes.
  destruct (find_route (routes key) req) as [[rt ps]|] eqn:Hr;
    [|apply Hfail; right; right; by eexists].
  apply find_route_In in Hr as [Hin _]. unfold routes in Hin.
  repeat (apply elem_of_cons in Hin as [-> | Hin]);
    cbn [route_chain route_handler run_chain
         route_root route_list route_search route_stats route_get
         route_create route_update route_delete].
  - by apply Hsame.
  - destruct (listProducts_reply ps uuid req products) as ([res|e] & -> & H).
    + apply Hsame. cbn [fst]. rewrite H. by split.
    + apply Hfail. by left.
  - destruct (search_reply ps uuid req products) as ([res|e] & -> & H).
    + apply Hsame. cbn [fst]. rewrite H. by split.
    + apply Hfail. destruct H as [H | H]; [by left | right; by left].
  - by apply Hsame.
  - unfold getById. destruct (List.find _ _).
    + by apply Hsame.
    + apply Hfail. right; right; by eexists.
  - destruct Hauth as [-> | ->]; [|by apply Hsame].
    destruct Hval as [-> | [msg ->]]; [|apply Hfail; right; left; by eexists].
    cbn. rewrite length_app. simpl. repeat split; try done; lia.
  - destruct Hauth as [-> | ->]; [|by apply Hsame].
    destruct Hval as [-> | [msg ->]]; [|apply Hfail; right; left; by eexists].
    unfold update. destruct (findIndex _ _) as [i|].
    + cbn. rewrite length_insert. by repeat split.
    + apply Hfail. right; right; by eexists.
  - destruct Hauth as [-> | ->]; [|by apply Hsame].
    unfold remove. destruct (findIndex _ _) as [i|] eqn:Hi.
    + apply findIndex_Some in Hi as (l1 & x & l2 & -> & <- & _).
      cbn. rewrite delete_middle, !length_app. simpl. repeat split; try done; lia.
    + apply Hfail. right; right; by eexists.
  - by apply elem_of_nil in Hin.
Qed.

(** ** Fields of a created record *)

(** X18: a created record has the six fields of the handler's literal
    and nothing else: its [id] is the generated identifier even when the
    body names one, and any further field of the body is dropped. *)
Theorem create_keeps_six_fields (key : option string) (uuid now : string)
    (req : request) (ps : gmap string string) (products : store) :
  routed key req (route_create key) ps ->
  authorized key req ->
  validateProduct req = None ->
  exists p,
    handle key uuid now req products = (json 201 (VObj p), products ++ [p]) /\
    p !! "id" = Some (VStr uuid) /\
    p !! "description" = Some (get "description" (body req)) /\
    forall k, k ∉ ["id"; "name"; "description"; "price"; "category"; "inStock"] ->
              p !! k = None.
Proof.
  intros Hr Ha Hv. eexists. split; [|split; [|split]].
  - rewrite handle_routes, Hr. simpl.
    rewrite (authenticate_passes key req Ha), Hv. reflexivity.
  - unfold product. by simplify_map_eq.
  - unfold product. by simplify_map_eq.
  - intros k Hk. rewrite !not_elem_of_cons in Hk.
    destruct Hk as (? & ? & ? & ? & ? & ? & _).
    unfold product. by rewrite !lookup_insert_ne, lookup_empty by done.
Qed.

End Server.

(** * The properties on concrete requests

    The requests below are evaluated with [ascii_engine]. *)

#[global] Existing Instance ascii_engine.

(** A delete without the header, on the seeded store. *)
Lemma unauthenticated_rejected_witness :
  handle (Some secret) "4" "t0"
    (request_of DELETE ["api"; "products"; "1"] ∅ no_query ∅) seeded =
    ({| status := 401; content := Json (VObj {[ "message" := VStr "Unauthorized" ]}) |},
     seeded)
  /\ forall msg code t,
       Json (VObj {[ "message" := VStr "Unauthorized" ]}) <> Json (envelope msg code t).
Proof.
  apply (unauthenticated_rejected (Some secret) "4" "t0"
           (request_of DELETE ["api"; "products"; "1"] ∅ no_query ∅)
           (route_delete (Some secret)) {[ "id" := "1" ]} seeded).
  - reflexivity.
  - right; right; reflexivity.
  - left; reflexivity.
Defined.

(** A creation with the price -5. *)
Lemma create_invalid_rejected_witness :
  exists msg, validation_message msg /\
    handle (Some secret) "4" "t0" (post negative_price) seeded =
      (errorHandler "t0" (ValidationError msg), seeded) /\
    errorHandler "t0" (ValidationError msg) = json 400 (envelope msg 400 "t0").
Proof.
  apply (create_invalid_rejected (Some secret) "4" "t0" (post negative_price) ∅ seeded).
  - reflexivity.
  - apply authed_authorized.
  - right; right; right; right. exists (inject_Z (-5)). split; [reflexivity|].
    unfold Qle. simpl. lia.
Defined.

(** A creation that says [inStock: false]. *)
Lemma create_inStock_default_witness :
  exists p,
    handle (Some secret) "4" "t0" (post out_of_stock) seeded =
      (json 201 (VObj p), seeded ++ [p]) /\
    get "inStock" p = VBool true /\
    get "id" p = VStr "4".
Proof.
  apply (create_inStock_default (Some secret) "4" "t0" (post out_of_stock) ∅ seeded).
  - reflexivity.
  - apply authed_authorized.
  - reflexivity.
  - right; reflexivity.
Defined.

(** Deleting the second seeded record. *)
Lemma delete_removes_witness :
  exists l1 p l2,
    seeded = l1 ++ p :: l2 /\
    Forall (fun x => get "id" x <> VStr "2") l1 /\
    get "id" p = VStr "2" /\
    handle (Some secret) "4" "t0" (del "2") seeded =
      ({| status := 204; content := NoBody |}, l1 ++ l2) /\
    (Forall (fun x => get "id" x <> VStr "2") (l1 ++ l2) ->
       forall uuid' now' req' ps',
         routed (Some secret) req' route_get ps' -> ps' !! "id" = Some "2" ->
         handle (Some secret) uuid' now' req' (l1 ++ l2) =
           (json 404 (envelope "Product not found" 404 now'), l1 ++ l2)).
Proof.
  refine (proj2 (delete_removes (Some secret) "4" "t0" (del "2")
                   {[ "id" := "2" ]} "2" seeded _ _ _) _).
  - reflexivity.
  - reflexivity.
  - apply authed_authorized.
  - apply Exists_cons_tl, Exists_cons_hd. reflexivity.
Defined.

(** Updating the first seeded record with a body that passes validation. *)
Lemma update_merges_witness :
  exists l1 old l2 merged,
    seeded = l1 ++ old :: l2 /\
    Forall (fun x => get "id" x <> VStr "1") l1 /\
    get "id" old = VStr "1" /\
    handle (Some secret) "4" "t0" (put "1" laptop_update) seeded =
      (json 200 (VObj merged), l1 ++ merged :: l2) /\
    (forall k v, laptop_update !! k = Some v -> merged !! k = Some v) /\
    (forall k, laptop_update !! k = None -> merged !! k = old !! k) /\
    (laptop_update !! "id" = None ->
       forall uuid' now' req' ps',
         routed (Some secret) req' route_get ps' -> ps' !! "id" = Some "1" ->
         handle (Some secret) uuid' now' req' (l1 ++ merged :: l2) =
           (json 200 (VObj merged), l1 ++ merged :: l2)).
Proof.
  refine (proj2 (proj2 (update_merges (Some secret) "4" "t0" (put "1" laptop_update)
                   {[ "id" := "1" ]} "1" seeded _ _ _ _)) _).
  - reflexivity.
  - reflexivity.
  - apply authed_authorized.
  - apply Exists_cons_hd. reflexivity.
  - repeat split; try reflexivity.
    exists (inject_Z 50). split; [reflexivity|]. unfold Qlt. simpl. lia.
Defined.

(** C1, as stated, on the seeded store: the body [{price: 50}] is
    answered with 400, and the record still has its old price. *)
Lemma update_price_only_rejected :
  handle (Some secret) "4" "t0" (put "1" price_only) seeded =
    (json 400 (envelope "Name, price, and category are required" 400 "t0"), seeded)
  /\ exists p,
       handle (Some secret) "5" "t1" (get_one "1") seeded = (json 200 (VObj p), seeded) /\
       get "price" p = VNum (99999 # 100) /\
       get "price" p <> num 50.
Proof.
  split; [reflexivity|].
  exists (product (VStr "1") (VStr "Laptop") (VStr "High performance laptop")
            (VNum (99999 # 100)) (VStr "Electronics") (VBool true)).
  split; [reflexivity|]. split; [reflexivity | discriminate].
Qed.

(** C9, as stated, after an update gave two records the identifier "2":
    the delete succeeds, and a later [getById] still finds a record. *)
Lemma delete_leaves_duplicate :
  ids after_id_overwrite = [VStr "2"; VStr "2"; VStr "3"]
  /\ exists st' p,
       handle (Some secret) "5" "t1" (del "2") after_id_overwrite =
         ({| status := 204; content := NoBody |}, st') /\
       handle (Some secret) "6" "t2" (get_one "2") st' = (json 200 (VObj p), st').
Proof.
  split; [reflexivity|].
  exists (drop 1 seeded),
    (product (VStr "2") (VStr "Smartphone") (VStr "Latest model smartphone")
       (VNum (69999 # 100)) (VStr "Electronics") (VBool true)).
  split; reflexivity.
Qed.

(** The short session keeps the identifiers distinct. *)
Lemma ids_preserved_witness : NoDup (ids (run (Some secret) session seeded)).
Proof.
  refine (proj2 (ids_preserved (Some secret) session seeded _) _).
  - repeat constructor; intros _; reflexivity.
  - change (NoDup [VStr "1"; VStr "2"; VStr "3"; VStr "4"; VStr "5"; VStr "6"]).
    repeat (apply NoDup_cons; split;
            [rewrite ?not_elem_of_cons; repeat split;
             try discriminate; apply not_elem_of_nil|]).
    apply NoDup_nil_2.
Defined.

(** C2, as stated, on the seeded store: an update whose body names the
    identifier "2" changes the identifier of record "1", and two records
    then share an identifier. *)
Lemma update_overwrites_id :
  ids seeded = [VStr "1"; VStr "2"; VStr "3"]
  /\ status (fst (handle (Some secret) "4" "t0" (put "1" laptop_as_2) seeded)) = 200
  /\ ids (snd (handle (Some secret) "4" "t0" (put "1" laptop_as_2) seeded)) =
       [VStr "2"; VStr "2"; VStr "3"]
  /\ ~ NoDup (ids (snd (handle (Some secret) "4" "t0" (put "1" laptop_as_2) seeded))).
Proof.
  split; [reflexivity|]. split; [reflexivity|]. split; [reflexivity|].
  change (~ NoDup [VStr "2"; VStr "2"; VStr "3"]).
  intros H. apply NoDup_cons in H as [H _]. apply H. apply list_elem_of_here.
Qed.

(** The first page of size one of the Electronics records. *)
Lemma list_paginates_witness :
  exists o,
    handle (Some secret) "4" "t0"
      (get_list (list_query (Some "electronics") (Some 1) (Some 1))) seeded =
      (json 200 (VObj o), seeded) /\
    get "total" o = num 2 /\
    get "products" o = VArr (VObj <$> take 1 seeded).
Proof.
  refine (proj1 (list_paginates (Some secret) "4" "t0"
                   (get_list (list_query (Some "electronics") (Some 1) (Some 1)))
                   ∅ seeded 1 1 _ _ _ _) _ _).
  - reflexivity.
  - intros _ _. apply seeded_text_categories.
  - reflexivity.
  - reflexivity.
  - lia.
  - lia.
Defined.

(** C4, as stated.  With page -1 and limit 1 the bounds are -2 and -1; no
    position lies in that interval, yet the response carries the record
    before the last of the filtered ones.  With the page "1.5" and limit
    1 the bounds are 0.5 and 1.5, an interval that holds position 1 only,
    yet the response carries the record at position 0.  An empty
    category lists every record, though no category matches the empty
    text.  And once a product with a numeric category is stored, a
    filtered listing fails. *)
Lemma list_negative_page :
  handle (Some secret) "4" "t0"
    (get_list (list_query (Some "Electronics") (Some (-1)) (Some 1))) seeded =
    (json 200 (listing 2 (-1) 1 (take 1 seeded)), seeded)
  /\ interval (matching (Some "Electronics") seeded) ((-1 - 1) * 1) (-1 * 1) = []
  /\ handle (Some secret) "4" "t0" (get_list page_one_and_a_half) seeded =
       (json 200 (listing 3 1 1 (take 1 seeded)), seeded)
  /\ interval_q seeded (((3 # 2) - 1) * 1) ((3 # 2) * 1) = take 1 (drop 1 seeded)
  /\ handle (Some secret) "4" "t0" (get_list (list_query (Some "") None None)) seeded =
       (json 200 (listing 3 1 10 seeded), seeded)
  /\ matching (Some "") seeded = []
  /\ status (fst (handle (Some secret) "5" "t1"
                    (get_list (list_query (Some "Electronics") None None)) with_mug)) = 500.
Proof. repeat split; reflexivity. Qed.

(** C5, on the store that holds a product created without description:
    searching for "laptop" ends in the engine's [TypeError], answered as
    HTTP 500, where the specification expects the one record that
    mentions the query. *)
Theorem search_crashes_undescribed :
  with_phone_case =
    seeded ++ [product (VStr "4") (VStr "Phone case") VUndef (num 12)
                 (VStr "Accessories") (VBool true)]
  /\ handle (Some secret) "5" "t1" (get_search (Some "laptop")) with_phone_case =
       (json 500 (envelope "Cannot read properties of undefined (reading 'toLowerCase')"
                    500 "t1"),
        with_phone_case)
  /\ List.filter (mentions "laptop") with_phone_case = take 1 seeded.
Proof. repeat split; reflexivity. Qed.

(** Searching the same store for "laptop", through the general
    statement. *)
Lemma search_without_description_witness :
  exists msg,
    handle (Some secret) "5" "t1" (get_search (Some "laptop")) with_phone_case =
      (json 500 (envelope msg 500 "t1"), with_phone_case).
Proof.
  apply (proj1 (search_without_description (Some secret) with_phone_case)
           "5" "t1" (get_search (Some "laptop")) ∅ "laptop").
  - reflexivity.
  - reflexivity.
  - discriminate.
  - apply Exists_cons_tl, Exists_cons_tl, Exists_cons_tl, Exists_cons_hd.
    split; [reflexivity|]. exists "Phone case". split; reflexivity.
Defined.

(** C6, as stated, on that store: it holds a record without description,
    and the query "CASE" is answered with 200 and that very record. *)
Lemma search_name_match_undescribed :
  Exists (fun p => get "description" p = VUndef) with_phone_case
  /\ handle (Some secret) "5" "t1" (get_search (Some "CASE")) with_phone_case =
       (json 200 (VArr [VObj (product (VStr "4") (VStr "Phone case") VUndef (num 12)
                                (VStr "Accessories") (VBool true))]),
        with_phone_case).
Proof.
  split; [|reflexivity].
  apply Exists_cons_tl, Exists_cons_tl, Exists_cons_tl, Exists_cons_hd. reflexivity.
Qed.

(** A PATCH request matches no route. *)
Lemma error_envelope_witness :
  handle (Some secret) "4" "t0" (authed PATCH ["api"; "products"] no_query ∅) seeded =
    (json 404 (envelope "Endpoint not found" 404 "t0"), seeded).
Proof.
  apply (proj2 (proj2 (error_envelope (Some secret) "t0"))
           "4" (authed PATCH ["api"; "products"] no_query ∅) seeded).
  reflexivity.
Defined.

Lemma get_keeps_store_witness :
  snd (handle (Some secret) "5" "t1" (get_search (Some "laptop")) with_phone_case) =
    with_phone_case.
Proof.
  apply (get_keeps_store (Some secret) "5" "t1" (get_search (Some "laptop"))
           with_phone_case).
  reflexivity.
Defined.

Lemma failure_keeps_store_witness :
  snd (handle (Some secret) "4" "t0" (put "1" price_only) seeded) = seeded.
Proof.
  apply (failure_keeps_store (Some secret) "4" "t0" (put "1" price_only) seeded).
  vm_compute. discriminate.
Defined.

Lemma create_then_get_witness :
  exists p,
    handle (Some secret) "4" "t0" (post phone_case) seeded =
      (json 201 (VObj p), seeded ++ [p]) /\
    forall uuid' now' req' ps',
      routed (Some secret) req' route_get ps' -> ps' !! "id" = Some "4" ->
      handle (Some secret) uuid' now' req' (seeded ++ [p]) =
        (json 200 (VObj p), seeded ++ [p]).
Proof.
  apply (create_then_get (Some secret) "4" "t0" (post phone_case) ∅ seeded).
  - reflexivity.
  - apply authed_authorized.
  - reflexivity.
  - repeat constructor; discriminate.
Defined.

Lemma create_then_delete_witness :
  handle (Some secret) "5" "t1" (del "4")
    (snd (handle (Some secret) "4" "t0" (post phone_case) seeded)) =
    ({| status := 204; content := NoBody |}, seeded).
Proof.
  apply (create_then_delete (Some secret) "4" "t0" (post phone_case) ∅ seeded
           eq_refl (authed_authorized _ _ _ _) eq_refl
           ltac:(repeat constructor; discriminate)
           "5" "t1" (del "4") {[ "id" := "4" ]}).
  - reflexivity.
  - reflexivity.
  - apply authed_authorized.
Defined.

Lemma update_idempotent_witness :
  snd (handle (Some secret) "5" "t1" (put "1" laptop_update)
         (snd (handle (Some secret) "4" "t0" (put "1" laptop_update) seeded))) =
    snd (handle (Some secret) "4" "t0" (put "1" laptop_update) seeded)
  /\
  fst (handle (Some secret) "5" "t1" (put "1" laptop_update)
         (snd (handle (Some secret) "4" "t0" (put "1" laptop_update) seeded))) =
    fst (handle (Some secret) "4" "t1" (put "1" laptop_update) seeded).
Proof.
  apply (update_idempotent (Some secret) "4" "5" "t0" "t1" (put "1" laptop_update)
           {[ "id" := "1" ]} "1" seeded).
  - reflexivity.
  - reflexivity.
  - reflexivity.
Defined.

Lemma valid_records_preserved_witness :
  Forall valid_record (run (Some secret) session seeded).
Proof.
  destruct (valid_records_preserved (Some secret) session seeded) as [H0 H].
  apply H. apply H0.
Defined.

Lemma unset_key_rejects_witness :
  handle None "4" "t0" (post phone_case) seeded = (unauthorized, seeded).
Proof.
  apply (unset_key_rejects None "4" "t0" (post phone_case) (route_create None) ∅ seeded).
  - by left.
  - reflexivity.
  - by left.
Defined.

Lemma update_checks_in_order_witness :
  handle (Some secret) "4" "t0" (put "9" price_only) seeded =
    (json 400 (envelope required_message 400 "t0"), seeded)
  /\
  handle (Some secret) "4" "t0" (put "9" laptop_update) seeded =
    (json 404 (envelope "Product not found" 404 "t0"), seeded).
Proof.
  split.
  - refine (proj1 (update_checks_in_order (Some secret) "4" "t0" (put "9" price_only)
                     {[ "id" := "9" ]} "9" seeded _ _ _) required_message _ _).
    + reflexivity.
    + reflexivity.
    + apply authed_authorized.
    + reflexivity.
    + discriminate.
  - refine (proj2 (update_checks_in_order (Some secret) "4" "t0" (put "9" laptop_update)
                     {[ "id" := "9" ]} "9" seeded _ _ _) _ _).
    + reflexivity.
    + reflexivity.
    + apply authed_authorized.
    + reflexivity.
    + repeat constructor; discriminate.
Defined.

Lemma pages_partition_witness :
  concat ((fun p => listed (fst (handle (Some secret) "4" "t0"
              (get_list (list_query None (Some (Z.of_nat p)) (Some 2)))
              seeded))) <$> seq 1 2) =
    VObj <$> seeded.
Proof.
  apply (proj2 (pages_partition (Some secret) "4" "t0" None 2 2 seeded
                  seeded_text_categories ltac:(lia))).
  simpl. lia.
Defined.

Lemma list_page_bounds_witness :
  exists o items,
    handle (Some secret) "4" "t0" (get_list (list_query None (Some 2) (Some 5))) seeded =
      (json 200 (VObj o), seeded) /\
    get "total" o = num 3 /\
    get "products" o = VArr (VObj <$> items) /\
    Z.of_nat (length items) <= 5 /\
    items `sublist_of` seeded /\
    (3 <= (2 - 1) * 5 -> items = []).
Proof.
  refine (list_page_bounds (Some secret) "4" "t0"
            (get_list (list_query None (Some 2) (Some 5))) ∅ seeded 2 5 _ _ _ _ _ _).
  - reflexivity.
  - discriminate.
  - reflexivity.
  - reflexivity.
  - lia.
  - lia.
Defined.

Lemma negative_limit_drops_last_witness :
  exists o,
    handle (Some secret) "4" "t0" (get_list (list_query None None (Some (-1)))) seeded =
      (json 200 (VObj o), seeded) /\
    get "total" o = num 3 /\
    get "products" o = VArr (VObj <$> take 2 seeded).
Proof.
  refine (negative_limit_drops_last (Some secret) "4" "t0"
            (get_list (list_query None None (Some (-1)))) ∅ (-1) seeded _ _ _ _ _).
  - reflexivity.
  - discriminate.
  - reflexivity.
  - reflexivity.
  - lia.
Defined.

Lemma stats_counts_witness :
  exists stats,
    handle (Some secret) "4" "t0"
      (request_of GET ["api"; "products"; "stats"] ∅ no_query ∅) seeded =
      (json 200 (VObj stats), seeded) /\
    forall c, stats !! c =
      match length (List.filter (in_category c) seeded) with
      | O => None
      | S n => Some (num (Z.of_nat (S n)))
      end.
Proof.
  apply (stats_counts (Some secret) "4" "t0"
           (request_of GET ["api"; "products"; "stats"] ∅ no_query ∅) ∅ seeded).
  - reflexivity.
  - repeat constructor; eexists; (split; [reflexivity|]);
      unfold inherited; rewrite !not_elem_of_cons;
      repeat split; try discriminate; apply not_elem_of_nil.
Defined.

Lemma search_finds_mentions_witness :
  exists found,
    handle (Some secret) "4" "t0" (get_search (Some "PHONE")) seeded =
      (json 200 (VArr (VObj <$> found)), seeded) /\
    found `sublist_of` seeded /\
    forall p, p ∈ found <->
      p ∈ seeded /\
      ((exists n, get "name" p = VStr n /\
                  occurs (toLowerCase "PHONE") (toLowerCase n)) \/
       (exists d, get "description" p = VStr d /\
                  occurs (toLowerCase "PHONE") (toLowerCase d))).
Proof.
  apply (search_finds_mentions (Some secret) "4" "t0" (get_search (Some "PHONE")) ∅
           "PHONE" seeded).
  - reflexivity.
  - reflexivity.
  - discriminate.
  - repeat constructor; eexists; (split; [reflexivity|]); right; eexists; reflexivity.
Defined.

Lemma queries_ignore_case_witness :
  handle (Some secret) "4" "t0" (get_search (Some "Laptop")) with_phone_case =
    handle (Some secret) "4" "t0" (get_search (Some "LAPTOP")) with_phone_case
  /\
  handle (Some secret) "4" "t0"
    (get_list (list_query (Some "Laptop") None None)) with_phone_case =
    handle (Some secret) "4" "t0"
      (get_list (list_query (Some "LAPTOP") None None)) with_phone_case.
Proof.
  apply (queries_ignore_case (Some secret) "4" "t0" "Laptop" "LAPTOP" None None
           with_phone_case).
  reflexivity.
Defined.

(** A negative price is reported as not positive. *)
Lemma validateProduct_outcomes_witness :
  validateProduct (post negative_price) =
    Some (Fail (ValidationError positive_message)).
Proof.
  apply (proj1 (proj2 (proj2 (validateProduct_outcomes (post negative_price))))).
  repeat split; try reflexivity.
  right. exists (inject_Z (-5)). split; [reflexivity|].
  unfold Qlt. simpl. lia.
Defined.

(** A creation answered 201 leaves four records where there were
    three. *)
Lemma status_tells_size_witness :
  length (snd (handle (Some secret) "4" "t0" (post phone_case) seeded)) =
    S (length seeded).
Proof.
  apply (proj1 (status_tells_size (Some secret) "4" "t0" (post phone_case) seeded)).
  reflexivity.
Defined.

Lemma create_keeps_six_fields_witness :
  exists p,
    handle (Some secret) "4" "t0" (post (<["id" := VStr "1"]> phone_case)) seeded =
      (json 201 (VObj p), seeded ++ [p]) /\
    p !! "id" = Some (VStr "4") /\
    p !! "description" = Some (get "description" (<["id" := VStr "1"]> phone_case)) /\
    forall k, k ∉ ["id"; "name"; "description"; "price"; "category"; "inStock"] ->
              p !! k = None.
Proof.
  refine (create_keeps_six_fields (Some secret) "4" "t0"
            (post (<["id" := VStr "1"]> phone_case)) ∅ seeded _ _ _).
  - reflexivity.
  - apply authed_authorized.
  - reflexivity.
Defined.
